(** * node-play: the probe application's generation functions and HTTP listener

    A shallow embedding of [hello.js], [pages/isr.js], [pages/index.js] and
    the server-rendered page (getServerSideProps), generation functions and
    page components, together with the part of the JavaScript runtime they
    call: values and truthiness, [process.env], the system clock, [Date] and
    [Date.prototype.toISOString], [JSON.stringify], and the response object
    of [http.createServer]. *)

From Stdlib Require Import ZArith Lia List Ascii String Bool DecimalString.
From stdpp Require Import base gmap strings list.
Import ListNotations.

Local Open Scope string_scope.
Local Open Scope Z_scope.

Set Warnings "-register-all".

(** ** JavaScript values *)

Module JS.

(** The values the three files build.  Numbers are the integral ones (every
    number the code handles is an integer below 2^53, where double arithmetic
    is exact).  An object is its list of own properties in insertion order. *)
Inductive value : Type :=
  | Undefined
  | Null
  | Bool (b : bool)
  | Number (n : Z)
  | Str (s : string)
  | Object (props : list (string * value)).

(** ToBoolean *)
Definition truthy (v : value) : bool :=
  match v with
  | Undefined | Null => false
  | Bool b => b
  | Number n => negb (n =? 0)
  | Str s => negb (String.eqb s EmptyString)
  | Object _ => true
  end.

(** [a || b] *)
Definition or (a b : value) : value := if truthy a then a else b.

(** Property lookup on an own-property list: [o.k] *)
Fixpoint lookup (k : string) (ps : list (string * value)) : option value :=
  match ps with
  | [] => None
  | (k', v) :: ps' => if String.eqb k k' then Some v else lookup k ps'
  end.

(** [o.k], [undefined] for a missing property or a non-object *)
Definition get (v : value) (k : string) : value :=
  match v with
  | Object ps => default Undefined (lookup k ps)
  | _ => Undefined
  end.

(** [k in o] *)
Definition has (v : value) (k : string) : bool :=
  match v with
  | Object ps => bool_decide (is_Some (lookup k ps))
  | _ => false
  end.

(** [Object.keys(o)] *)
Definition keys (v : value) : list string :=
  match v with
  | Object ps => map fst ps
  | _ => []
  end.

(** What a [throw] carries; the only one the built-ins used here raise. *)
Inductive error : Type := RangeError.

End JS.

(** ** Dates: time values, calendar fields, the ISO format *)

Module Date.

(** A time value is a number of milliseconds since 1970-01-01T00:00:00Z. *)
Definition msPerDay : Z := 86400000.
Definition msPerHour : Z := 3600000.
Definition msPerMinute : Z := 60000.
Definition msPerSecond : Z := 1000.

(** The largest time value a Date can hold: 100,000,000 days. *)
Definition maxTime : Z := 8640000000000000.

Definition is_time_value (t : Z) : Prop := - maxTime <= t <= maxTime.

(** A Date object is its [[DateValue]]: a time value, or NaN ([None]). *)
Definition t : Type := option Z.

(** TimeClip *)
Definition TimeClip (v : Z) : t :=
  if Z.abs v <=? maxTime then Some v else None.

(** [new Date(v)] for a number [v] *)
Definition of_number (v : Z) : t := TimeClip v.

(** Day(t); [/] and [mod] on [Z] round down, as the standard's floor and
    modulo do. *)
Definition Day (tv : Z) : Z := tv / msPerDay.

Definition isLeapYear (y : Z) : bool :=
  (y mod 4 =? 0) && (negb (y mod 100 =? 0) || (y mod 400 =? 0)).

Definition DaysInYear (y : Z) : Z := if isLeapYear y then 366 else 365.

(** DayFromYear(y): the day number of the first day of year [y]. *)
Definition DayFromYear (y : Z) : Z :=
  365 * (y - 1970) + (y - 1969) / 4 - (y - 1901) / 100 + (y - 1601) / 400.

(** The year that contains day number [d]: the largest [y] with
    [DayFromYear y <= d] (lemma [YearFromDay_spec]).  The mean year has
    146097/400 days, which puts the estimate within one year of it. *)
Definition YearFromDay (d : Z) : Z :=
  let y := 1970 + (400 * d) / 146097 in
  if d <? DayFromYear y then y - 1
  else if DayFromYear (y + 1) <=? d then y + 1
  else y.

Definition YearFromTime (tv : Z) : Z := YearFromDay (Day tv).
Definition InLeapYear (tv : Z) : bool := isLeapYear (YearFromTime tv).
Definition DayWithinYear (tv : Z) : Z := Day tv - DayFromYear (YearFromTime tv).

(** Days of the year before month [m] (0 = January). *)
Definition MonthStart (leap : bool) (m : Z) : Z :=
  let l := if leap then 1 else 0 in
  match m with
  | 0 => 0 | 1 => 31 | 2 => 59 + l | 3 => 90 + l | 4 => 120 + l
  | 5 => 151 + l | 6 => 181 + l | 7 => 212 + l | 8 => 243 + l
  | 9 => 273 + l | 10 => 304 + l | 11 => 334 + l | _ => 365 + l
  end.

Definition MonthFromDay (leap : bool) (d : Z) : Z :=
  if d <? MonthStart leap 1 then 0
  else if d <? MonthStart leap 2 then 1
  else if d <? MonthStart leap 3 then 2
  else if d <? MonthStart leap 4 then 3
  else if d <? MonthStart leap 5 then 4
  else if d <? MonthStart leap 6 then 5
  else if d <? MonthStart leap 7 then 6
  else if d <? MonthStart leap 8 then 7
  else if d <? MonthStart leap 9 then 8
  else if d <? MonthStart leap 10 then 9
  else if d <? MonthStart leap 11 then 10
  else 11.

Definition MonthFromTime (tv : Z) : Z :=
  MonthFromDay (InLeapYear tv) (DayWithinYear tv).

Definition DateFromTime (tv : Z) : Z :=
  DayWithinYear tv - MonthStart (InLeapYear tv) (MonthFromTime tv) + 1.

Definition HourFromTime (tv : Z) : Z := (tv / msPerHour) mod 24.
Definition MinFromTime (tv : Z) : Z := (tv / msPerMinute) mod 60.
Definition SecFromTime (tv : Z) : Z := (tv / msPerSecond) mod 60.
Definition msFromTime (tv : Z) : Z := tv mod msPerSecond.

(** MakeTime, MakeDay (for a month in 0..11) and MakeDate *)
Definition MakeTime (h m s ms : Z) : Z :=
  h * msPerHour + m * msPerMinute + s * msPerSecond + ms.
Definition MakeDay (y m d : Z) : Z :=
  DayFromYear y + MonthStart (isLeapYear y) m + d - 1.
Definition MakeDate (day time : Z) : Z := day * msPerDay + time.

(** *** Printing *)

Definition digit (d : Z) : ascii := ascii_of_nat (48 + Z.to_nat d).

(** [w] decimal digits of [n], most significant first, in front of [rest]. *)
Fixpoint pad (w : nat) (n : Z) (rest : string) : string :=
  match w with
  | O => rest
  | S w' => String (digit (n / 10 ^ Z.of_nat w'))
                   (pad w' (n mod 10 ^ Z.of_nat w') rest)
  end.

(** The year: four digits for 0..9999, otherwise a sign and six digits. *)
Definition padYear (y : Z) (rest : string) : string :=
  if (0 <=? y) && (y <=? 9999) then pad 4 y rest
  else if y <? 0 then String "-" (pad 6 (- y) rest)
  else String "+" (pad 6 y rest).

(** YYYY-MM-DDTHH:mm:ss.sssZ for a time value *)
Definition format (tv : Z) : string :=
  padYear (YearFromTime tv)
    (String "-" (pad 2 (MonthFromTime tv + 1)
    (String "-" (pad 2 (DateFromTime tv)
    (String "T" (pad 2 (HourFromTime tv)
    (String ":" (pad 2 (MinFromTime tv)
    (String ":" (pad 2 (SecFromTime tv)
    (String "." (pad 3 (msFromTime tv)
    (String "Z" EmptyString))))))))))))).

(** *** Reading the format back: [Date.parse] on what [format] emits *)

Definition digit_val (c : ascii) : option Z :=
  let n := Z.of_nat (nat_of_ascii c) in
  if (48 <=? n) && (n <=? 57) then Some (n - 48) else None.

Fixpoint readDigits (w : nat) (acc : Z) (s : string) : option (Z * string) :=
  match w with
  | O => Some (acc, s)
  | S w' =>
      match s with
      | EmptyString => None
      | String c s' =>
          match digit_val c with
          | Some d => readDigits w' (acc * 10 + d) s'
          | None => None
          end
      end
  end.

Definition expect (c : ascii) (s : string) : option string :=
  match s with
  | String c' s' => if Ascii.eqb c c' then Some s' else None
  | EmptyString => None
  end.

Definition readYear (s : string) : option (Z * string) :=
  match s with
  | String "+" s' => readDigits 6 0 s'
  | String "-" s' =>
      match readDigits 6 0 s' with
      | Some (y, r) => Some (- y, r)
      | None => None
      end
  | _ => readDigits 4 0 s
  end.

Definition in_range (lo hi x : Z) : option unit :=
  if (lo <=? x) && (x <=? hi) then Some tt else None.

Definition parse (s : string) : t :=
  '(y, s) ← readYear s;
  s ← expect "-" s; '(mo, s) ← readDigits 2 0 s; _ ← in_range 1 12 mo;
  s ← expect "-" s; '(d, s) ← readDigits 2 0 s; _ ← in_range 1 31 d;
  s ← expect "T" s; '(h, s) ← readDigits 2 0 s; _ ← in_range 0 23 h;
  s ← expect ":" s; '(mi, s) ← readDigits 2 0 s; _ ← in_range 0 59 mi;
  s ← expect ":" s; '(se, s) ← readDigits 2 0 s; _ ← in_range 0 59 se;
  s ← expect "." s; '(ms, s) ← readDigits 3 0 s;
  s ← expect "Z" s;
  match s with
  | EmptyString => TimeClip (MakeDate (MakeDay y (mo - 1) d) (MakeTime h mi se ms))
  | _ => None
  end.

End Date.

(** ** JSON.stringify *)

Module JSON.








End JSON.

(** ** The process: system clock and environment *)

(** What a run can observe of the process it runs in.  [instant n] is the
    real time, in microseconds since the epoch, at which the [n]-th reading of
    the system clock is taken; [reads] counts the readings taken so far, so
    time passes between two readings of one run as well as between runs.
    [env] is [process.env]: every value in it is a string. *)
Record World : Type := {
  instant : nat -> Z;
  reads : nat;
  env : gmap string string;
}.

(** The clock shows whole milliseconds. *)
Definition reading (w : World) (n : nat) : Z := instant w n / 1000.

Definition tick (w : World) : World :=
  {| instant := instant w; reads := S (reads w); env := env w |}.

(** Real time does not run backwards. *)
Definition monotone (w : World) : Prop :=
  forall n, instant w n <= instant w (S n).

(** Every reading is a time value, as [Date.now()] promises. *)
Definition time_values (w : World) : Prop :=
  forall n, Date.is_time_value (reading w n).

(** Every reading is a time value at least ten seconds before the last one:
    the clock is not within ten seconds of the year 275760. *)
Definition clock_in_range (w : World) : Prop :=
  forall n, - Date.maxTime <= reading w n /\ reading w n + 10000 <= Date.maxTime.

(** *** Runs: state passing with exceptions *)

Inductive outcome (A : Type) : Type :=
  | Return (a : A)
  | Throw (e : JS.error).
Arguments Return {A} a.
Arguments Throw {A} e.

Definition M (A : Type) : Type := World -> outcome A * World.

Definition ret {A} (a : A) : M A := fun w => (Return a, w).
Definition throw {A} (e : JS.error) : M A := fun w => (Throw e, w).
Definition bind {A B} (m : M A) (k : A -> M B) : M B :=
  fun w =>
    match m w with
    | (Return a, w') => k a w'
    | (Throw e, w') => (Throw e, w')
    end.

Declare Scope run_scope.
Delimit Scope run_scope with run.
Notation "'let*' x ':=' m 'in' k" := (bind m (fun x => k))
  (at level 10, x name, m at level 100, k at level 200) : run_scope.

(** Reading the system clock: the current reading, and time moves on. *)
Definition now (w : World) : Z * World := (reading w (reads w), tick w).

(** [Date.now()] *)
Definition Date_now : M Z := fun w => let '(tv, w') := now w in (Return tv, w').

(** [new Date()]: the current time value, which needs no clipping. *)
Definition Date_new : M Date.t :=
  (let* tv := Date_now in ret (Some tv))%run.

(** [d.toISOString()]: a RangeError on an invalid date. *)
Definition toISOString (d : Date.t) : M string :=
  match d with
  | Some tv => ret (Date.format tv)
  | None => throw JS.RangeError
  end.

(** The value of [process.env[k]]: a string, or [undefined] when unset. *)
Definition env_value (w : World) (k : string) : JS.value :=
  match env w !! k with
  | Some s => JS.Str s
  | None => JS.Undefined
  end.

(** [process.env[k]] *)
Definition process_env (k : string) : M JS.value :=
  fun w => (Return (env_value w k), w).

(** A settled promise: what an [async] function without [await] returns. *)
Inductive promise (A : Type) : Type :=
  | Fulfilled (a : A)
  | Rejected (e : JS.error).
Arguments Fulfilled {A} a.
Arguments Rejected {A} e.

Definition async {A} (m : M A) : World -> promise A * World :=
  fun w =>
    match m w with
    | (Return a, w') => (Fulfilled a, w')
    | (Throw e, w') => (Rejected e, w')
    end.

(** ** hello.js: the standalone listener *)

Module Http.

(** A request as Node hands it to the server: [headers] is [req.headers],
    with the header names in lower case. *)
Record IncomingMessage : Type := {
  method : string;
  url : string;
  httpVersion : string;
  headers : list (string * string);
  payload : string;
}.

(** [req.headers[name]], [None] for [undefined] *)
Fixpoint header (name : string) (hs : list (string * string)) : option string :=
  match hs with
  | [] => None
  | (k, v) :: hs' => if String.eqb name k then Some v else header name hs'
  end.









(** *** What Node does with a request before and after the listener *)

(** A word character of a regular expression: a letter, a digit or [_]. *)
Definition is_word (c : ascii) : bool :=
  let n := nat_of_ascii c in
  ((48 <=? n) && (n <=? 57) || (65 <=? n) && (n <=? 90)
   || (97 <=? n) && (n <=? 122) || (n =? 95))%nat.

Definition lower (c : ascii) : ascii :=
  let n := nat_of_ascii c in
  if ((65 <=? n) && (n <=? 90))%nat then ascii_of_nat (n + 32) else c.

(** [s] without the prefix [p], letters compared without case. *)
Fixpoint strip_prefix (p s : string) : option string :=
  match p, s with
  | EmptyString, _ => Some s
  | String a p', String b s' =>
      if Ascii.eqb (lower a) (lower b) then strip_prefix p' s' else None
  | String _ _, EmptyString => None
  end.

(** The test of [/(?:^|\W)100-continue(?:$|\W)/i] on what is left of a
    string, [boundary] telling whether the text before it allows a match to
    start here. *)
Fixpoint continue_from (boundary : bool) (s : string) : bool :=
  (boundary &&
   match strip_prefix "100-continue" s with
   | Some EmptyString => true
   | Some (String c _) => negb (is_word c)
   | None => false
   end)
  || match s with
     | EmptyString => false
     | String c s' => continue_from (negb (is_word c)) s'
     end.

Definition continueExpression (s : string) : bool := continue_from true s.

(** What the server does with a request. *)
Inductive route : Type :=
  | Destroy                     (* the socket is destroyed, nothing is sent *)
  | BadRequest                  (* Node answers 400 itself *)
  | ExpectationFailed           (* Node answers 417 itself *)
  | Dispatch (continue : bool). (* the listener is called, after a 100
                                   Continue when [continue] *)

(** A server with a [request] listener only: a CONNECT has no listener and
    the socket is destroyed; an HTTP/1.1 request without a Host header is
    answered 400; an HTTP/1.1 request with an Expect header is dispatched
    after a 100 Continue when the header asks for one and answered 417
    otherwise; everything else is dispatched. *)
Definition route_of (req : IncomingMessage) : route :=
  if String.eqb (method req) "CONNECT" then Destroy
  else if String.eqb (httpVersion req) "1.1" then
    match header "host" (headers req) with
    | None => BadRequest
    | Some _ =>
        match header "expect" (headers req) with
        | None => Dispatch false
        | Some e => if continueExpression e then Dispatch true
                    else ExpectationFailed
        end
    end
  else Dispatch false.





End Http.

Module Hello.



End Hello.

(** ** The generated pages *)

Definition fallback : string := "Not set (check your platform configuration)".

(** The server-rendered page (getServerSideProps). *)
Module Ssr.

Definition getServerSideProps : World -> promise JS.value * World :=
  async (
    let* d := Date_new in
    let* currentTime := toISOString d in
    let* host := process_env "HOSTNAME" in
    let hostname := JS.or host (JS.Str fallback) in
    ret (JS.Object
      [("props", JS.Object
         [("serverTime", JS.Str currentTime);
          ("hostname", hostname)])]))%run.

(** [n] requests one after the other, each answered by a call of the
    generation function. *)
Fixpoint requests (n : nat) (w : World) : list (promise JS.value) * World :=
  match n with
  | O => ([], w)
  | S n' =>
      let '(p, w1) := getServerSideProps w in
      let '(ps, w2) := requests n' w1 in
      (p :: ps, w2)
  end.

End Ssr.

(** pages/isr.js *)
Module Isr.

Definition getStaticProps : World -> promise JS.value * World :=
  async (
    let* d := Date_new in
    let* renderTime := toISOString d in
    let* host := process_env "HOSTNAME" in
    let hostname := JS.or host (JS.Str fallback) in
    let* tv := Date_now in
    let* nextRevalidation := toISOString (Date.of_number (tv + 10000)) in
    ret (JS.Object
      [("props", JS.Object
         [("renderTime", JS.Str renderTime);
          ("hostname", hostname);
          ("nextRevalidation", JS.Str nextRevalidation)]);
       ("revalidate", JS.Number 10)]))%run.

End Isr.

(** The generation timestamp of a snapshot: [serverTime] on the
    server-rendered page, [renderTime] on the regenerated one. *)
Definition timestamp_of (field : string) (out : promise JS.value) : option string :=
  match out with
  | Fulfilled o =>
      match JS.get (JS.get o "props") field with
      | JS.Str s => Some s
      | _ => None
      end
  | Rejected _ => None
  end.

(** Timestamps are compared as the instants they denote. *)
Definition ts_le (a b : string) : Prop :=
  exists x y, Date.parse a = Some x /\ Date.parse b = Some y /\ x <= y.
Definition ts_lt (a b : string) : Prop :=
  exists x y, Date.parse a = Some x /\ Date.parse b = Some y /\ x < y.

(** ** The Rendering Runtime's cache for a page with a revalidation window *)

Module Cache.

(** Modelled from the spec: the time-windowed regenerating cache of the
    Rendering Runtime (section 4.2), which belongs to the framework and is not
    part of the source files.  A page keeps a single slot: the snapshot being
    served, the window its generation declared, the clock reading at which it
    was produced, the regeneration in flight if there is one, and a count of
    the regenerations started so far. *)
Record t : Type := {
  snapshot : JS.value;
  window : Z;
  producedAt : Z;
  inflight : option (promise JS.value);
  regenerations : nat;
}.

(** Modelled from the spec: the two states of a page's slot. *)
Inductive status : Type := Fresh | Stale.

(** Modelled from the spec: Fresh while the age is below the window, Stale
    once the elapsed seconds reach it. *)
Definition status_at (c : t) (tv : Z) : status :=
  if window c * 1000 <=? tv - producedAt c then Stale else Fresh.

(** Modelled from the spec: whether a request at [tv] finds the slot
    Stale. *)
Definition is_stale (c : t) (tv : Z) : bool :=
  match status_at c tv with Stale => true | Fresh => false end.

(** Modelled from the spec: what happens to a page, one event at a time, as
    the runtime's event loop takes them: a request for the page arrives, or
    the regeneration in flight finishes. *)
Inductive event : Type :=
  | Request
  | RegenerationDone.

Section Page.

(** The page's generation function. *)
Variable generate : World -> promise JS.value * World.

(** Modelled from the spec: the first generation fills the slot; the window
    is the [revalidate] field of what the generation function returned. *)
Definition build (w : World) : option t * World :=
  match generate w with
  | (Fulfilled out, w1) =>
      match JS.get out "revalidate" with
      | JS.Number secs =>
          let '(tv, w2) := now w1 in
          (Some {| snapshot := JS.get out "props"; window := secs;
                   producedAt := tv; inflight := None;
                   regenerations := 0 |}, w2)
      | _ => (None, w1)
      end
  | (Rejected _, w1) => (None, w1)
  end.

(** Modelled from the spec: a request is always answered at once with the
    cached snapshot; when the slot is Stale and no regeneration is in flight,
    the request starts one in the background. *)
Definition request (c : t) (w : World) : JS.value * t * World :=
  let '(tv, w1) := now w in
  match inflight c with
  | None =>
      if is_stale c tv then
        let '(p, w2) := generate w1 in
        (snapshot c,
         {| snapshot := snapshot c; window := window c;
            producedAt := producedAt c; inflight := Some p;
            regenerations := S (regenerations c) |}, w2)
      else (snapshot c, c, w1)
  | Some _ => (snapshot c, c, w1)
  end.

(** Modelled from the spec: a finished regeneration replaces the snapshot in
    one step and the slot is Fresh from that moment; a failed one leaves the
    previous snapshot in place, to be retried by the next qualifying
    request. *)
Definition regeneration_done (c : t) (w : World) : t * World :=
  match inflight c with
  | None => (c, w)
  | Some (Rejected _) =>
      ({| snapshot := snapshot c; window := window c;
          producedAt := producedAt c; inflight := None;
          regenerations := regenerations c |}, w)
  | Some (Fulfilled out) =>
      let '(tv, w1) := now w in
      ({| snapshot := JS.get out "props";
          window := match JS.get out "revalidate" with
                    | JS.Number secs => secs
                    | _ => window c
                    end;
          producedAt := tv; inflight := None;
          regenerations := regenerations c |}, w1)
  end.

(** Modelled from the spec: the runtime taking a sequence of events; the
    result lists the responses to the requests, in order. *)
Fixpoint run (evs : list event) (c : t) (w : World)
    : list JS.value * t * World :=
  match evs with
  | [] => ([], c, w)
  | Request :: evs' =>
      let '(resp, c1, w1) := request c w in
      let '(resps, c2, w2) := run evs' c1 w1 in
      (resp :: resps, c2, w2)
  | RegenerationDone :: evs' =>
      let '(c1, w1) := regeneration_done c w in
      run evs' c1 w1
  end.

End Page.

End Cache.

(** The number of requests among the events of a sequence. *)
Fixpoint requests_in (evs : list Cache.event) : nat :=
  match evs with
  | [] => O
  | Cache.Request :: evs' => S (requests_in evs')
  | Cache.RegenerationDone :: evs' => requests_in evs'
  end.

(** The render time of a cached snapshot of pages/isr.js. *)
Definition renderTime_of (snap : JS.value) : option string :=
  match JS.get snap "renderTime" with
  | JS.Str s => Some s
  | _ => None
  end.

(** The host field of what a generation function returned. *)
Definition host_field (out : JS.value) : JS.value :=
  JS.get (JS.get out "props") "hostname".

(** The world [k] clock readings later. *)
Definition later (k : nat) (w : World) : World := Nat.iter k tick w.


(** A props record that holds a timestamp and a host name and nothing
    else. *)
Definition snapshot_fields_only (props : JS.value) : Prop :=
  exists tk hk ts host,
    props = JS.Object [(tk, JS.Str ts); (hk, JS.Str host)].

(** The host name a generation computes in a process. *)
Definition hostname_in (w : World) : JS.value :=
  match env w !! "HOSTNAME" with
  | Some s => if String.eqb s EmptyString then JS.Str fallback else JS.Str s
  | None => JS.Str fallback
  end.

(** ** The page components *)

Module React.

(** What an element is an instance of: a host tag such as [div], or a
    component such as [Link] of next/link. *)
Inductive etype : Type :=
  | Tag (name : string)
  | Component (name : string).

(** What a component returns: an element with its props and its children in
    document order, or a value that stands as a child (literal text is a
    string value; a string is its UTF-8 bytes). *)
Inductive node : Type :=
  | Val (v : JS.value)
  | El (type : etype) (props : list (string * JS.value)) (children : list node).

(** Literal text between tags. *)
Definition Text (s : string) : node := Val (JS.Str s).

(** A destructured parameter [{ k }]: the property of the props object,
    [undefined] when it has none of that name. *)
Definition prop (props : list (string * JS.value)) (k : string) : JS.value :=
  default JS.Undefined (JS.lookup k props).

(** The values that stand as children anywhere in a tree, in document
    order. *)
Fixpoint values (n : node) : list JS.value :=
  match n with
  | Val v => [v]
  | El _ _ children =>
      (fix all (ns : list node) : list JS.value :=
         match ns with
         | [] => []
         | n' :: ns' => (values n' ++ all ns')%list
         end) children
  end.

(** The targets of the [Link] elements of a tree, in document order. *)
Fixpoint links (n : node) : list JS.value :=
  match n with
  | Val _ => []
  | El type props children =>
      let here :=
        match type with
        | Component name =>
            if String.eqb name "Link" then [prop props "href"] else []
        | Tag _ => []
        end in
      (here ++
       (fix all (ns : list node) : list JS.value :=
          match ns with
          | [] => []
          | n' :: ns' => (links n' ++ all ns')%list
          end) children)%list
  end.

End React.

Module Pages.

(** pages/index.js: the landing page. *)
Definition Home : React.node :=
  React.El (React.Tag "div")
    [("style", JS.Object
        [("minHeight", JS.Str "100vh"); ("display", JS.Str "flex");
         ("flexDirection", JS.Str "column"); ("alignItems", JS.Str "center");
         ("justifyContent", JS.Str "center");
         ("backgroundColor", JS.Str "#f5f5f5");
         ("fontFamily", JS.Str "system-ui, -apple-system, sans-serif");
         ("padding", JS.Str "20px")])]
    [React.El (React.Tag "h1")
       [("style", JS.Object
           [("fontSize", JS.Str "2.5rem"); ("marginBottom", JS.Str "1rem");
            ("color", JS.Str "#333")])]
       [React.Text "Next.js Probe Application"];
     React.El (React.Tag "p")
       [("style", JS.Object
           [("fontSize", JS.Str "1.2rem"); ("marginBottom", JS.Str "2rem");
            ("color", JS.Str "#666"); ("textAlign", JS.Str "center");
            ("maxWidth", JS.Str "600px")])]
       [React.Text "Test your Node.js PaaS platform's handling of different Next.js rendering modes"];
     React.El (React.Tag "div")
       [("style", JS.Object
           [("display", JS.Str "flex"); ("gap", JS.Str "20px");
            ("flexWrap", JS.Str "wrap"); ("justifyContent", JS.Str "center")])]
       [React.El (React.Component "Link")
          [("href", JS.Str "/ssr");
           ("style", JS.Object
              [("display", JS.Str "block"); ("padding", JS.Str "20px 40px");
               ("backgroundColor", JS.Str "#0070f3");
               ("color", JS.Str "white"); ("textDecoration", JS.Str "none");
               ("borderRadius", JS.Str "8px"); ("fontSize", JS.Str "1.1rem");
               ("fontWeight", JS.Str "600");
               ("transition", JS.Str "background-color 0.2s");
               ("textAlign", JS.Str "center"); ("minWidth", JS.Str "200px")])]
          [React.Text "Test SSR";
           React.El (React.Tag "div")
             [("style", JS.Object
                 [("fontSize", JS.Str "0.9rem");
                  ("fontWeight", JS.Str "normal");
                  ("marginTop", JS.Str "8px"); ("opacity", JS.Str "0.9")])]
             [React.Text "Server-Side Rendering"]];
        React.El (React.Component "Link")
          [("href", JS.Str "/isr");
           ("style", JS.Object
              [("display", JS.Str "block"); ("padding", JS.Str "20px 40px");
               ("backgroundColor", JS.Str "#10b981");
               ("color", JS.Str "white"); ("textDecoration", JS.Str "none");
               ("borderRadius", JS.Str "8px"); ("fontSize", JS.Str "1.1rem");
               ("fontWeight", JS.Str "600");
               ("transition", JS.Str "background-color 0.2s");
               ("textAlign", JS.Str "center"); ("minWidth", JS.Str "200px")])]
          [React.Text "Test ISR";
           React.El (React.Tag "div")
             [("style", JS.Object
                 [("fontSize", JS.Str "0.9rem");
                  ("fontWeight", JS.Str "normal");
                  ("marginTop", JS.Str "8px"); ("opacity", JS.Str "0.9")])]
             [React.Text "Incremental Static Regeneration"]]];
     React.El (React.Tag "div")
       [("style", JS.Object
           [("marginTop", JS.Str "3rem"); ("padding", JS.Str "20px");
            ("backgroundColor", JS.Str "white");
            ("borderRadius", JS.Str "8px"); ("maxWidth", JS.Str "700px");
            ("boxShadow", JS.Str "0 2px 4px rgba(0,0,0,0.1)")])]
       [React.El (React.Tag "h2")
          [("style", JS.Object
              [("fontSize", JS.Str "1.3rem"); ("marginBottom", JS.Str "1rem");
               ("color", JS.Str "#333")])]
          [React.Text "How to Use This Probe:"];
        React.El (React.Tag "ul")
          [("style", JS.Object
              [("color", JS.Str "#666"); ("lineHeight", JS.Str "1.8")])]
          [React.El (React.Tag "li")
             []
             [React.El (React.Tag "strong")
                []
                [React.Text "SSR Test:"];
              React.Text " Renders on every request. The timestamp should change with each page refresh."];
           React.El (React.Tag "li")
             []
             [React.El (React.Tag "strong")
                []
                [React.Text "ISR Test:"];
              React.Text " Cached and revalidated every 10 seconds. The timestamp will stay the same for 10 seconds."];
           React.El (React.Tag "li")
             []
             [React.Text "Both pages display ";
              React.El (React.Tag "code")
                []
                [React.Text "process.env.HOSTNAME"];
              React.Text " to identify which container/pod is serving the request."]]]].

(** The server-rendered page, given the props of getServerSideProps. *)
Definition SSRPage (props : list (string * JS.value)) : React.node :=
  let serverTime := React.prop props "serverTime" in
  let hostname := React.prop props "hostname" in
  React.El (React.Tag "div")
    [("style", JS.Object
        [("minHeight", JS.Str "100vh"); ("display", JS.Str "flex");
         ("flexDirection", JS.Str "column"); ("alignItems", JS.Str "center");
         ("justifyContent", JS.Str "center");
         ("backgroundColor", JS.Str "#f0f9ff");
         ("fontFamily", JS.Str "system-ui, -apple-system, sans-serif");
         ("padding", JS.Str "20px")])]
    [React.El (React.Tag "div")
       [("style", JS.Object
           [("backgroundColor", JS.Str "#0070f3"); ("color", JS.Str "white");
            ("padding", JS.Str "16px 32px"); ("borderRadius", JS.Str "8px");
            ("marginBottom", JS.Str "2rem")])]
       [React.El (React.Tag "h1")
          [("style", JS.Object
              [("margin", JS.Number 0); ("fontSize", JS.Str "2rem")])]
          [React.Text "SSR Test Page"]];
     React.El (React.Tag "div")
       [("style", JS.Object
           [("backgroundColor", JS.Str "white"); ("padding", JS.Str "40px");
            ("borderRadius", JS.Str "12px");
            ("boxShadow", JS.Str "0 4px 6px rgba(0,0,0,0.1)");
            ("maxWidth", JS.Str "600px"); ("width", JS.Str "100%")])]
       [React.El (React.Tag "div")
          [("style", JS.Object
              [("backgroundColor", JS.Str "#dbeafe");
               ("border", JS.Str "2px solid #0070f3");
               ("borderRadius", JS.Str "8px"); ("padding", JS.Str "16px");
               ("marginBottom", JS.Str "24px")])]
          [React.El (React.Tag "div")
             [("style", JS.Object
                 [("display", JS.Str "flex"); ("alignItems", JS.Str "center");
                  ("gap", JS.Str "8px"); ("marginBottom", JS.Str "8px")])]
             [React.El (React.Tag "div")
                [("style", JS.Object
                    [("width", JS.Str "12px"); ("height", JS.Str "12px");
                     ("backgroundColor", JS.Str "#0070f3");
                     ("borderRadius", JS.Str "50%");
                     ("animation", JS.Str "pulse 2s infinite")])]
                [];
              React.El (React.Tag "strong")
                [("style", JS.Object
                    [("color", JS.Str "#0070f3")])]
                [React.Text "Live Server-Side Rendering"]];
           React.El (React.Tag "p")
             [("style", JS.Object
                 [("margin", JS.Number 0); ("fontSize", JS.Str "0.9rem");
                  ("color", JS.Str "#1e40af")])]
             [React.Text "⚡ This page is rendered fresh on the server with EVERY request"]];
        React.El (React.Tag "div")
          [("style", JS.Object
              [("marginBottom", JS.Str "24px")])]
          [React.El (React.Tag "label")
             [("style", JS.Object
                 [("display", JS.Str "block");
                  ("fontSize", JS.Str "0.875rem");
                  ("fontWeight", JS.Str "600"); ("color", JS.Str "#4b5563");
                  ("marginBottom", JS.Str "8px");
                  ("textTransform", JS.Str "uppercase");
                  ("letterSpacing", JS.Str "0.05em")])]
             [React.Text "Server Render Time:"];
           React.El (React.Tag "div")
             [("style", JS.Object
                 [("backgroundColor", JS.Str "#f9fafb");
                  ("border", JS.Str "1px solid #e5e7eb");
                  ("borderRadius", JS.Str "6px");
                  ("padding", JS.Str "12px 16px");
                  ("fontFamily", JS.Str "monospace");
                  ("fontSize", JS.Str "1.1rem"); ("color", JS.Str "#111827")])]
             [React.Val serverTime];
           React.El (React.Tag "p")
             [("style", JS.Object
                 [("fontSize", JS.Str "0.85rem"); ("color", JS.Str "#6b7280");
                  ("marginTop", JS.Str "8px"); ("fontStyle", JS.Str "italic")])]
             [React.Text "💡 Refresh this page - the time should update immediately"]];
        React.El (React.Tag "div")
          [("style", JS.Object
              [("marginBottom", JS.Str "24px")])]
          [React.El (React.Tag "label")
             [("style", JS.Object
                 [("display", JS.Str "block");
                  ("fontSize", JS.Str "0.875rem");
                  ("fontWeight", JS.Str "600"); ("color", JS.Str "#4b5563");
                  ("marginBottom", JS.Str "8px");
                  ("textTransform", JS.Str "uppercase");
                  ("letterSpacing", JS.Str "0.05em")])]
             [React.Text "Server Hostname (Pod/Container ID):"];
           React.El (React.Tag "div")
             [("style", JS.Object
                 [("backgroundColor", JS.Str "#f9fafb");
                  ("border", JS.Str "1px solid #e5e7eb");
                  ("borderRadius", JS.Str "6px");
                  ("padding", JS.Str "12px 16px");
                  ("fontFamily", JS.Str "monospace");
                  ("fontSize", JS.Str "1.1rem"); ("color", JS.Str "#111827");
                  ("wordBreak", JS.Str "break-all")])]
             [React.Val hostname];
           React.El (React.Tag "p")
             [("style", JS.Object
                 [("fontSize", JS.Str "0.85rem"); ("color", JS.Str "#6b7280");
                  ("marginTop", JS.Str "8px"); ("fontStyle", JS.Str "italic")])]
             [React.Text "🖥️ This identifies which server/container handled the request"]];
        React.El (React.Tag "div")
          [("style", JS.Object
              [("backgroundColor", JS.Str "#fffbeb");
               ("border", JS.Str "1px solid #fbbf24");
               ("borderRadius", JS.Str "8px"); ("padding", JS.Str "16px");
               ("marginBottom", JS.Str "24px")])]
          [React.El (React.Tag "h3")
             [("style", JS.Object
                 [("margin", JS.Str "0 0 8px 0"); ("fontSize", JS.Str "1rem");
                  ("color", JS.Str "#92400e")])]
             [React.Text "How SSR Works:"];
           React.El (React.Tag "ul")
             [("style", JS.Object
                 [("margin", JS.Number 0); ("paddingLeft", JS.Str "20px");
                  ("fontSize", JS.Str "0.9rem"); ("color", JS.Str "#78350f");
                  ("lineHeight", JS.Str "1.6")])]
             [React.El (React.Tag "li")
                []
                [React.Text "The server executes ";
                 React.El (React.Tag "code")
                   []
                   [React.Text "getServerSideProps()"];
                 React.Text " on every request"];
              React.El (React.Tag "li")
                []
                [React.Text "Fresh data is fetched and the page is rendered to HTML"];
              React.El (React.Tag "li")
                []
                [React.Text "The complete HTML is sent to the browser"];
              React.El (React.Tag "li")
                []
                [React.El (React.Tag "strong")
                   []
                   [React.Text "No caching"];
                 React.Text " - perfect for real-time data"]]];
        React.El (React.Tag "div")
          [("style", JS.Object
              [("display", JS.Str "flex"); ("gap", JS.Str "12px");
               ("flexWrap", JS.Str "wrap")])]
          [React.El (React.Component "Link")
             [("href", JS.Str "/");
              ("style", JS.Object
                 [("flex", JS.Str "1"); ("padding", JS.Str "12px 24px");
                  ("backgroundColor", JS.Str "#6b7280");
                  ("color", JS.Str "white");
                  ("textDecoration", JS.Str "none");
                  ("borderRadius", JS.Str "6px");
                  ("textAlign", JS.Str "center");
                  ("fontWeight", JS.Str "500")])]
             [React.Text "← Back to Home"];
           React.El (React.Component "Link")
             [("href", JS.Str "/isr");
              ("style", JS.Object
                 [("flex", JS.Str "1"); ("padding", JS.Str "12px 24px");
                  ("backgroundColor", JS.Str "#10b981");
                  ("color", JS.Str "white");
                  ("textDecoration", JS.Str "none");
                  ("borderRadius", JS.Str "6px");
                  ("textAlign", JS.Str "center");
                  ("fontWeight", JS.Str "500")])]
             [React.Text "Try ISR Test →"]]];
     React.El (React.Tag "div")
       [("style", JS.Object
           [("marginTop", JS.Str "2rem"); ("padding", JS.Str "20px");
            ("backgroundColor", JS.Str "white");
            ("borderRadius", JS.Str "8px"); ("maxWidth", JS.Str "600px");
            ("width", JS.Str "100%");
            ("boxShadow", JS.Str "0 2px 4px rgba(0,0,0,0.1)")])]
       [React.El (React.Tag "h3")
          [("style", JS.Object
              [("fontSize", JS.Str "1.1rem"); ("marginBottom", JS.Str "12px");
               ("color", JS.Str "#333")])]
          [React.Text "🧪 Testing Checklist for PaaS:"];
        React.El (React.Tag "ol")
          [("style", JS.Object
              [("color", JS.Str "#666"); ("lineHeight", JS.Str "1.8");
               ("margin", JS.Number 0); ("paddingLeft", JS.Str "20px")])]
          [React.El (React.Tag "li")
             []
             [React.Text "Refresh the page multiple times - timestamp should always update"];
           React.El (React.Tag "li")
             []
             [React.Text "Verify the hostname is displayed correctly (set HOSTNAME env var in your platform)"];
           React.El (React.Tag "li")
             []
             [React.Text "If you have multiple replicas/pods, the hostname should vary between requests"];
           React.El (React.Tag "li")
             []
             [React.Text "Check that the page loads quickly (SSR should be efficient)"]]]].

(** pages/isr.js: the regenerated page, given the props of getStaticProps. *)
Definition ISRPage (props : list (string * JS.value)) : React.node :=
  let renderTime := React.prop props "renderTime" in
  let hostname := React.prop props "hostname" in
  let nextRevalidation := React.prop props "nextRevalidation" in
  React.El (React.Tag "div")
    [("style", JS.Object
        [("minHeight", JS.Str "100vh"); ("display", JS.Str "flex");
         ("flexDirection", JS.Str "column"); ("alignItems", JS.Str "center");
         ("justifyContent", JS.Str "center");
         ("backgroundColor", JS.Str "#f0fdf4");
         ("fontFamily", JS.Str "system-ui, -apple-system, sans-serif");
         ("padding", JS.Str "20px")])]
    [React.El (React.Tag "div")
       [("style", JS.Object
           [("backgroundColor", JS.Str "#10b981"); ("color", JS.Str "white");
            ("padding", JS.Str "16px 32px"); ("borderRadius", JS.Str "8px");
            ("marginBottom", JS.Str "2rem")])]
       [React.El (React.Tag "h1")
          [("style", JS.Object
              [("margin", JS.Number 0); ("fontSize", JS.Str "2rem")])]
          [React.Text "ISR Test Page"]];
     React.El (React.Tag "div")
       [("style", JS.Object
           [("backgroundColor", JS.Str "white"); ("padding", JS.Str "40px");
            ("borderRadius", JS.Str "12px");
            ("boxShadow", JS.Str "0 4px 6px rgba(0,0,0,0.1)");
            ("maxWidth", JS.Str "600px"); ("width", JS.Str "100%")])]
       [React.El (React.Tag "div")
          [("style", JS.Object
              [("backgroundColor", JS.Str "#d1fae5");
               ("border", JS.Str "2px solid #10b981");
               ("borderRadius", JS.Str "8px"); ("padding", JS.Str "16px");
               ("marginBottom", JS.Str "24px")])]
          [React.El (React.Tag "div")
             [("style", JS.Object
                 [("display", JS.Str "flex"); ("alignItems", JS.Str "center");
                  ("gap", JS.Str "8px"); ("marginBottom", JS.Str "8px")])]
             [React.El (React.Tag "div")
                [("style", JS.Object
                    [("width", JS.Str "12px"); ("height", JS.Str "12px");
                     ("backgroundColor", JS.Str "#10b981");
                     ("borderRadius", JS.Str "50%")])]
                [];
              React.El (React.Tag "strong")
                [("style", JS.Object
                    [("color", JS.Str "#059669")])]
                [React.Text "Incremental Static Regeneration"]];
           React.El (React.Tag "p")
             [("style", JS.Object
                 [("margin", JS.Number 0); ("fontSize", JS.Str "0.9rem");
                  ("color", JS.Str "#047857")])]
             [React.Text "‚ö° This page is cached for 10 seconds, then regenerated in the background"]];
        React.El (React.Tag "div")
          [("style", JS.Object
              [("marginBottom", JS.Str "24px")])]
          [React.El (React.Tag "label")
             [("style", JS.Object
                 [("display", JS.Str "block");
                  ("fontSize", JS.Str "0.875rem");
                  ("fontWeight", JS.Str "600"); ("color", JS.Str "#4b5563");
                  ("marginBottom", JS.Str "8px");
                  ("textTransform", JS.Str "uppercase");
                  ("letterSpacing", JS.Str "0.05em")])]
             [React.Text "Page Generation Time:"];
           React.El (React.Tag "div")
             [("style", JS.Object
                 [("backgroundColor", JS.Str "#f9fafb");
                  ("border", JS.Str "1px solid #e5e7eb");
                  ("borderRadius", JS.Str "6px");
                  ("padding", JS.Str "12px 16px");
                  ("fontFamily", JS.Str "monospace");
                  ("fontSize", JS.Str "1.1rem"); ("color", JS.Str "#111827")])]
             [React.Val renderTime];
           React.El (React.Tag "p")
             [("style", JS.Object
                 [("fontSize", JS.Str "0.85rem"); ("color", JS.Str "#6b7280");
                  ("marginTop", JS.Str "8px"); ("fontStyle", JS.Str "italic")])]
             [React.Text "üí° This timestamp stays frozen for 10 seconds between updates"]];
        React.El (React.Tag "div")
          [("style", JS.Object
              [("marginBottom", JS.Str "24px")])]
          [React.El (React.Tag "label")
             [("style", JS.Object
                 [("display", JS.Str "block");
                  ("fontSize", JS.Str "0.875rem");
                  ("fontWeight", JS.Str "600"); ("color", JS.Str "#4b5563");
                  ("marginBottom", JS.Str "8px");
                  ("textTransform", JS.Str "uppercase");
                  ("letterSpacing", JS.Str "0.05em")])]
             [React.Text "Server Hostname (Pod/Container that built this version):"];
           React.El (React.Tag "div")
             [("style", JS.Object
                 [("backgroundColor", JS.Str "#f9fafb");
                  ("border", JS.Str "1px solid #e5e7eb");
                  ("borderRadius", JS.Str "6px");
                  ("padding", JS.Str "12px 16px");
                  ("fontFamily", JS.Str "monospace");
                  ("fontSize", JS.Str "1.1rem"); ("color", JS.Str "#111827");
                  ("wordBreak", JS.Str "break-all")])]
             [React.Val hostname];
           React.El (React.Tag "p")
             [("style", JS.Object
                 [("fontSize", JS.Str "0.85rem"); ("color", JS.Str "#6b7280");
                  ("marginTop", JS.Str "8px"); ("fontStyle", JS.Str "italic")])]
             [React.Text "üñ•Ô∏è This shows which server generated this cached version"]];
        React.El (React.Tag "div")
          [("style", JS.Object
              [("marginBottom", JS.Str "24px")])]
          [React.El (React.Tag "label")
             [("style", JS.Object
                 [("display", JS.Str "block");
                  ("fontSize", JS.Str "0.875rem");
                  ("fontWeight", JS.Str "600"); ("color", JS.Str "#4b5563");
                  ("marginBottom", JS.Str "8px");
                  ("textTransform", JS.Str "uppercase");
                  ("letterSpacing", JS.Str "0.05em")])]
             [React.Text "Next Revalidation Eligible After:"];
           React.El (React.Tag "div")
             [("style", JS.Object
                 [("backgroundColor", JS.Str "#fef3c7");
                  ("border", JS.Str "1px solid #fbbf24");
                  ("borderRadius", JS.Str "6px");
                  ("padding", JS.Str "12px 16px");
                  ("fontFamily", JS.Str "monospace");
                  ("fontSize", JS.Str "1.1rem"); ("color", JS.Str "#78350f")])]
             [React.Val nextRevalidation];
           React.El (React.Tag "p")
             [("style", JS.Object
                 [("fontSize", JS.Str "0.85rem"); ("color", JS.Str "#6b7280");
                  ("marginTop", JS.Str "8px"); ("fontStyle", JS.Str "italic")])]
             [React.Text "‚è±Ô∏è After this time, the next request will trigger background regeneration"]];
        React.El (React.Tag "div")
          [("style", JS.Object
              [("backgroundColor", JS.Str "#eff6ff");
               ("border", JS.Str "1px solid #3b82f6");
               ("borderRadius", JS.Str "8px"); ("padding", JS.Str "16px");
               ("marginBottom", JS.Str "24px")])]
          [React.El (React.Tag "h3")
             [("style", JS.Object
                 [("margin", JS.Str "0 0 8px 0"); ("fontSize", JS.Str "1rem");
                  ("color", JS.Str "#1e40af")])]
             [React.Text "How ISR Works:"];
           React.El (React.Tag "ul")
             [("style", JS.Object
                 [("margin", JS.Number 0); ("paddingLeft", JS.Str "20px");
                  ("fontSize", JS.Str "0.9rem"); ("color", JS.Str "#1e3a8a");
                  ("lineHeight", JS.Str "1.6")])]
             [React.El (React.Tag "li")
                []
                [React.Text "Page is pre-built at build time and served from cache (lightning fast!)"];
              React.El (React.Tag "li")
                []
                [React.Text "Cache is valid for ";
                 React.El (React.Tag "strong")
                   []
                   [React.Text "10 seconds"];
                 React.Text " (the revalidate time)"];
              React.El (React.Tag "li")
                []
                [React.Text "After 10 seconds, the next visitor triggers background regeneration"];
              React.El (React.Tag "li")
                []
                [React.Text "That visitor still gets the cached version instantly"];
              React.El (React.Tag "li")
                []
                [React.Text "Subsequent visitors get the updated version"]]];
        React.El (React.Tag "div")
          [("style", JS.Object
              [("display", JS.Str "flex"); ("gap", JS.Str "12px");
               ("flexWrap", JS.Str "wrap")])]
          [React.El (React.Component "Link")
             [("href", JS.Str "/");
              ("style", JS.Object
                 [("flex", JS.Str "1"); ("padding", JS.Str "12px 24px");
                  ("backgroundColor", JS.Str "#6b7280");
                  ("color", JS.Str "white");
                  ("textDecoration", JS.Str "none");
                  ("borderRadius", JS.Str "6px");
                  ("textAlign", JS.Str "center");
                  ("fontWeight", JS.Str "500")])]
             [React.Text "‚Üê Back to Home"];
           React.El (React.Component "Link")
             [("href", JS.Str "/ssr");
              ("style", JS.Object
                 [("flex", JS.Str "1"); ("padding", JS.Str "12px 24px");
                  ("backgroundColor", JS.Str "#0070f3");
                  ("color", JS.Str "white");
                  ("textDecoration", JS.Str "none");
                  ("borderRadius", JS.Str "6px");
                  ("textAlign", JS.Str "center");
                  ("fontWeight", JS.Str "500")])]
             [React.Text "Try SSR Test ‚Üí"]]];
     React.El (React.Tag "div")
       [("style", JS.Object
           [("marginTop", JS.Str "2rem"); ("padding", JS.Str "20px");
            ("backgroundColor", JS.Str "white");
            ("borderRadius", JS.Str "8px"); ("maxWidth", JS.Str "600px");
            ("width", JS.Str "100%");
            ("boxShadow", JS.Str "0 2px 4px rgba(0,0,0,0.1)")])]
       [React.El (React.Tag "h3")
          [("style", JS.Object
              [("fontSize", JS.Str "1.1rem"); ("marginBottom", JS.Str "12px");
               ("color", JS.Str "#333")])]
          [React.Text "üß™ Testing ISR on Your PaaS:"];
        React.El (React.Tag "ol")
          [("style", JS.Object
              [("color", JS.Str "#666"); ("lineHeight", JS.Str "1.8");
               ("margin", JS.Number 0); ("paddingLeft", JS.Str "20px")])]
          [React.El (React.Tag "li")
             []
             [React.El (React.Tag "strong")
                []
                [React.Text "Initial test:"];
              React.Text " Refresh multiple times quickly - timestamp should NOT change"];
           React.El (React.Tag "li")
             []
             [React.El (React.Tag "strong")
                []
                [React.Text "Wait 10 seconds"];
              React.Text " and refresh once - you'll still see the OLD timestamp"];
           React.El (React.Tag "li")
             []
             [React.El (React.Tag "strong")
                []
                [React.Text "Refresh again"];
              React.Text " (after step 2) - now you should see a NEW timestamp"];
           React.El (React.Tag "li")
             []
             [React.Text "The background regeneration happened between your 2nd and 3rd refresh"];
           React.El (React.Tag "li")
             []
             [React.Text "Repeat the test to verify consistent 10-second caching behavior"]];
        React.El (React.Tag "div")
          [("style", JS.Object
              [("marginTop", JS.Str "16px"); ("padding", JS.Str "12px");
               ("backgroundColor", JS.Str "#fef3c7");
               ("borderRadius", JS.Str "6px"); ("fontSize", JS.Str "0.9rem");
               ("color", JS.Str "#78350f")])]
          [React.El (React.Tag "strong")
             []
             [React.Text "üí° Pro Tip:"];
           React.Text " ISR is perfect for content that changes occasionally but doesn't need to be real-time. It combines the speed of static pages with the freshness of dynamic content."]]].

End Pages.

(** The props object the runtime hands to the page component: the [props]
    field of what the generation function returned. *)
Definition page_props (out : JS.value) : list (string * JS.value) :=
  match JS.get out "props" with
  | JS.Object ps => ps
  | _ => []
  end.

(** A child React renders as text: a string. *)
Definition is_text (v : JS.value) : Prop := exists s, v = JS.Str s.

(** ** Sample processes *)

(** A clock that starts on 2024-11-03T06:00:00.123456Z, moves 0.7 ms from
    one reading to the next for a thousand readings and then stands still. *)
Definition probe_instant (n : nat) : Z :=
  1730613600123456 + 700 * Z.of_nat (Nat.min n 1000).

(** A process on a platform that sets HOSTNAME. *)
Definition probe_world : World :=
  {| instant := probe_instant; reads := 0; env := {[ "HOSTNAME" := "pod-7" ]} |}.

(** A process without HOSTNAME. *)
Definition bare_world : World :=
  {| instant := probe_instant; reads := 0; env := ∅ |}.

(** A process whose HOSTNAME is the empty string. *)
Definition blank_world : World :=
  {| instant := probe_instant; reads := 0; env := {[ "HOSTNAME" := EmptyString ]} |}.

(** A process whose clock stands five seconds before the last time value. *)
Definition last_world : World :=
  {| instant := fun _ => (Date.maxTime - 5000) * 1000; reads := 0; env := ∅ |}.









(** The clock of the spec's end-to-end scenario, in milliseconds: the build
    at 0 s, requests at 2 s, 5 s, 9 s and 11 s, the regeneration running from
    11.01 s and done at 11.05 s, a request at 12 s. *)
Definition scenario_readings : list Z :=
  [0; 0; 0; 2000; 5000; 9000; 11000; 11010; 11020; 11050; 12000].

Definition scenario_world : World :=
  {| instant := fun n => nth n scenario_readings 12000 * 1000;
     reads := 0; env := {[ "HOSTNAME" := "pod-7" ]} |}.

(** A slot filled at 0 s that has seen no regeneration yet. *)
Definition scenario_slot : Cache.t :=
  {| Cache.snapshot :=
       JS.Object [("renderTime", JS.Str "1970-01-01T00:00:00.000Z");
                  ("hostname", JS.Str "pod-7");
                  ("nextRevalidation", JS.Str "1970-01-01T00:00:10.000Z")];
     Cache.window := 10; Cache.producedAt := 0; Cache.inflight := None;
     Cache.regenerations := 0 |}.

(** The timestamps the server-rendered page shows on [n] requests in a
    row. *)
Definition served_timestamps (n : nat) (w : World) : list (option string) :=
  map (timestamp_of "serverTime") (fst (Ssr.requests n w)).

(** ** The shape of a printed timestamp *)

(** What a position of a pattern accepts. *)
Inductive char_class : Type :=
  | Digit
  | Sign
  | Lit (c : ascii).

Definition is_digit (c : ascii) : bool :=
  match Date.digit_val c with Some _ => true | None => false end.

Definition accepts (k : char_class) (c : ascii) : bool :=
  match k with
  | Digit => is_digit c
  | Sign => Ascii.eqb c "+" || Ascii.eqb c "-"
  | Lit c' => Ascii.eqb c c'
  end.

(** The string has exactly the characters the pattern asks for. *)
Fixpoint matches (pat : list char_class) (s : string) : bool :=
  match pat, s with
  | [], EmptyString => true
  | k :: pat', String c s' => accepts k c && matches pat' s'
  | _, _ => false
  end.

(** -MM-DDTHH:mm:ss.sssZ *)
Definition iso_tail : list char_class :=
  [Lit "-"; Digit; Digit; Lit "-"; Digit; Digit; Lit "T"; Digit; Digit;
   Lit ":"; Digit; Digit; Lit ":"; Digit; Digit; Lit "."; Digit; Digit; Digit;
   Lit "Z"].

(** YYYY-MM-DDTHH:mm:ss.sssZ *)
Definition iso_pattern : list char_class :=
  [Digit; Digit; Digit; Digit] ++ iso_tail.

(** The expanded form, with a sign and a six-digit year. *)
Definition iso_pattern_expanded : list char_class :=
  [Sign; Digit; Digit; Digit; Digit; Digit; Digit] ++ iso_tail.

(** The form [toISOString] uses for a time value: four-digit years for
    0000 to 9999, the expanded form otherwise. *)
Definition shape_of (tv : Z) : list char_class :=
  let y := Date.YearFromTime tv in
  if (0 <=? y) && (y <=? 9999) then iso_pattern else iso_pattern_expanded.

(** * Facts about dates *)

Section DateFacts.

Import Date.

Lemma DayFromYear_succ y : DayFromYear (y + 1) = DayFromYear y + DaysInYear y.
Proof.
  unfold DayFromYear, DaysInYear, isLeapYear.
  destruct (y mod 4 =? 0) eqn:E4; destruct (y mod 100 =? 0) eqn:E100;
    destruct (y mod 400 =? 0) eqn:E400; cbn [andb orb negb];
    rewrite ?Z.eqb_eq, ?Z.eqb_neq in *; Z.div_mod_to_equations; lia.
Qed.

Lemma YearFromDay_spec d :
  DayFromYear (YearFromDay d) <= d < DayFromYear (YearFromDay d + 1).
Proof.
  unfold YearFromDay.
  set (y := 1970 + 400 * d / 146097).
  assert (Hy : 146097 * (y - 1970) <= 400 * d < 146097 * (y - 1970) + 146097)
    by (subst y; Z.div_mod_to_equations; lia).
  clearbody y.
  destruct (d <? DayFromYear y) eqn:E1; [|destruct (DayFromYear (y + 1) <=? d) eqn:E2];
    rewrite ?Z.ltb_lt, ?Z.ltb_ge, ?Z.leb_le, ?Z.leb_gt in *;
    unfold DayFromYear in *; Z.div_mod_to_equations; lia.
Qed.

Lemma DayFromYear_mono y1 y2 : y1 <= y2 -> DayFromYear y1 <= DayFromYear y2.
Proof. unfold DayFromYear. intros H. Z.div_mod_to_equations. lia. Qed.

(** [YearFromDay d] is the largest year that starts on or before day [d]. *)
Lemma YearFromDay_largest d y : DayFromYear y <= d -> y <= YearFromDay d.
Proof.
  intros H. destruct (YearFromDay_spec d) as [_ Hlt].
  destruct (Z_le_gt_dec y (YearFromDay d)) as [|Hgt]; [assumption|].
  assert (DayFromYear (YearFromDay d + 1) <= DayFromYear y)
    by (apply DayFromYear_mono; lia).
  lia.
Qed.

Lemma DayWithinYear_range tv :
  0 <= DayWithinYear tv < DaysInYear (YearFromTime tv).
Proof.
  unfold DayWithinYear, YearFromTime.
  pose proof (YearFromDay_spec (Day tv)) as H.
  rewrite DayFromYear_succ in H. lia.
Qed.

Lemma MonthFromDay_range leap d : 0 <= MonthFromDay leap d <= 11.
Proof.
  unfold MonthFromDay.
  repeat match goal with |- context [if ?b then _ else _] => destruct b end; lia.
Qed.

Lemma MonthFromDay_bounds (leap : bool) (d : Z) :
  0 <= d < (if leap then 366 else 365) ->
  MonthStart leap (MonthFromDay leap d) <= d < MonthStart leap (MonthFromDay leap d + 1)
  /\ MonthStart leap (MonthFromDay leap d + 1) - MonthStart leap (MonthFromDay leap d) <= 31.
Proof.
  intros H. unfold MonthFromDay.
  repeat match goal with
    |- context [if ?a <? ?b then _ else _] =>
      destruct (Z.ltb_spec a b)
    end; destruct leap; cbn in *;
    repeat match goal with
      |- context [MonthStart ?l ?m] =>
        let v := eval vm_compute in (MonthStart l m) in
        change (MonthStart l m) with v
      end; lia.
Qed.

Lemma DateFromTime_range tv : 1 <= DateFromTime tv <= 31.
Proof.
  unfold DateFromTime, MonthFromTime.
  pose proof (DayWithinYear_range tv) as H.
  unfold DaysInYear in H. fold (InLeapYear tv) in H.
  pose proof (MonthFromDay_bounds (InLeapYear tv) (DayWithinYear tv) H). lia.
Qed.

Lemma MonthFromTime_range tv : 0 <= MonthFromTime tv <= 11.
Proof. apply MonthFromDay_range. Qed.

Lemma time_fields_range tv :
  0 <= HourFromTime tv <= 23 /\ 0 <= MinFromTime tv <= 59 /\
  0 <= SecFromTime tv <= 59 /\ 0 <= msFromTime tv <= 999.
Proof.
  unfold HourFromTime, MinFromTime, SecFromTime, msFromTime,
    msPerHour, msPerMinute, msPerSecond.
  Z.div_mod_to_equations. lia.
Qed.

(** Putting the calendar fields of a time value back together. *)
Lemma MakeDate_fields tv :
  MakeDate
    (MakeDay (YearFromTime tv) (MonthFromTime tv) (DateFromTime tv))
    (MakeTime (HourFromTime tv) (MinFromTime tv) (SecFromTime tv) (msFromTime tv))
  = tv.
Proof.
  unfold MakeDate, MakeDay, MakeTime, DateFromTime.
  fold (InLeapYear tv).
  unfold DayWithinYear, Day, HourFromTime, MinFromTime, SecFromTime,
    msFromTime, msPerDay, msPerHour, msPerMinute, msPerSecond.
  generalize (MonthStart (InLeapYear tv) (MonthFromTime tv)) as off.
  generalize (DayFromYear (YearFromTime tv)) as dfy.
  intros. Z.div_mod_to_equations. lia.
Qed.

Lemma DayFromYear_first : DayFromYear (-271821) <= -100000000.
Proof. vm_compute. discriminate. Qed.

Lemma DayFromYear_last : 100000000 < DayFromYear 275761.
Proof. vm_compute. reflexivity. Qed.

Lemma YearFromTime_range tv :
  is_time_value tv -> -271821 <= YearFromTime tv <= 275760.
Proof.
  unfold is_time_value, maxTime, YearFromTime. intros H.
  assert (Hd : -100000000 <= Day tv <= 100000000)
    by (unfold Day, msPerDay; Z.div_mod_to_equations; lia).
  generalize dependent (Day tv). clear tv H. intros d Hd.
  pose proof (YearFromDay_spec d) as Hs.
  pose proof DayFromYear_first as Hfirst.
  pose proof DayFromYear_last as Hlast.
  split.
  - apply YearFromDay_largest. lia.
  - destruct (Z_le_gt_dec (YearFromDay d) 275760) as [|Hgt]; [assumption|].
    assert (DayFromYear 275761 <= DayFromYear (YearFromDay d))
      by (apply DayFromYear_mono; lia).
    lia.
Qed.

(** *** Printing and reading digits *)

Lemma digit_val_digit d : 0 <= d <= 9 -> digit_val (digit d) = Some d.
Proof.
  intros H.
  assert (Hd : d = 0 \/ d = 1 \/ d = 2 \/ d = 3 \/ d = 4 \/ d = 5 \/ d = 6
               \/ d = 7 \/ d = 8 \/ d = 9) by lia.
  repeat (destruct Hd as [-> | Hd]; [reflexivity|]). subst d. reflexivity.
Qed.

Lemma readDigits_pad w : forall n acc rest,
  0 <= n < 10 ^ Z.of_nat w ->
  readDigits w acc (pad w n rest) = Some (acc * 10 ^ Z.of_nat w + n, rest).
Proof.
  induction w as [|w IH]; intros n acc rest Hn.
  - cbn. f_equal. f_equal. change (10 ^ Z.of_nat 0) with 1 in Hn. lia.
  - cbn [pad readDigits].
    assert (Hp : 0 < 10 ^ Z.of_nat w) by (apply Z.pow_pos_nonneg; lia).
    assert (Hs : 10 ^ Z.of_nat (S w) = 10 * 10 ^ Z.of_nat w)
      by (rewrite Nat2Z.inj_succ, Z.pow_succ_r; lia).
    rewrite Hs in *.
    assert (Hq : 0 <= n / 10 ^ Z.of_nat w <= 9).
    { split; [apply Z.div_pos; lia|].
      assert (n / 10 ^ Z.of_nat w < 10); [|lia].
      apply Z.div_lt_upper_bound; lia. }
    rewrite (digit_val_digit _ Hq).
    rewrite IH by (apply Z.mod_pos_bound; lia).
    f_equal. f_equal.
    pose proof (Z.div_mod n (10 ^ Z.of_nat w)). nia.
Qed.

Lemma expect_String c s : expect c (String c s) = Some s.
Proof. cbn. now rewrite Ascii.eqb_refl. Qed.

Lemma in_range_ok lo hi x : lo <= x <= hi -> in_range lo hi x = Some tt.
Proof.
  intros [H1 H2]. unfold in_range.
  apply Z.leb_le in H1, H2. now rewrite H1, H2.
Qed.

(** A year printed in four digits starts with a digit, not with a sign. *)
Lemma readYear_digits d s :
  0 <= d <= 9 ->
  readYear (String (digit d) s) = readDigits 4 0 (String (digit d) s).
Proof.
  intros H.
  assert (Hd : d = 0 \/ d = 1 \/ d = 2 \/ d = 3 \/ d = 4 \/ d = 5 \/ d = 6
               \/ d = 7 \/ d = 8 \/ d = 9) by lia.
  repeat (destruct Hd as [-> | Hd]; [reflexivity|]). subst d. reflexivity.
Qed.

Lemma readYear_padYear y rest :
  -999999 <= y <= 999999 -> readYear (padYear y rest) = Some (y, rest).
Proof.
  intros Hy. unfold padYear.
  destruct (Z.leb_spec 0 y) as [H0|H0]; cbn [andb].
  - destruct (Z.leb_spec y 9999) as [H1|H1].
    + assert (Hr : 0 <= y < 10 ^ Z.of_nat 4) by (change (10 ^ Z.of_nat 4) with 10000; lia).
      pose proof (readDigits_pad 4 y 0 rest Hr) as E.
      cbn [pad] in *. rewrite readYear_digits; [rewrite E; f_equal; f_equal; lia|].
      change (10 ^ Z.of_nat 3) with 1000. Z.div_mod_to_equations. lia.
    + destruct (Z.ltb_spec y 0); [lia|].
      cbn [readYear]. rewrite readDigits_pad; [f_equal; f_equal; lia|].
      change (10 ^ Z.of_nat 6) with 1000000. lia.
  - destruct (Z.ltb_spec y 0); [|lia].
    cbn [readYear]. rewrite readDigits_pad; [f_equal; f_equal; lia|].
    change (10 ^ Z.of_nat 6) with 1000000. lia.
Qed.

Lemma TimeClip_time_value tv : is_time_value tv -> TimeClip tv = Some tv.
Proof.
  unfold is_time_value, TimeClip. intros H.
  destruct (Z.leb_spec (Z.abs tv) maxTime); [reflexivity|lia].
Qed.

Lemma TimeClip_Some v tv : TimeClip v = Some tv -> v = tv /\ is_time_value tv.
Proof.
  unfold TimeClip, is_time_value.
  destruct (Z.leb_spec (Z.abs v) maxTime); [|discriminate].
  intros [= <-]. lia.
Qed.

(** Reading back what [format] printed gives the time value printed. *)
Lemma parse_format tv : is_time_value tv -> parse (format tv) = Some tv.
Proof.
  intros Htv. unfold parse, format.
  pose proof (YearFromTime_range tv Htv) as Hy.
  pose proof (MonthFromTime_range tv) as Hmo.
  pose proof (DateFromTime_range tv) as Hd.
  destruct (time_fields_range tv) as (Hh & Hmi & Hs & Hms).
  rewrite readYear_padYear by lia. cbn [mbind option_bind].
  rewrite expect_String. cbn [mbind option_bind].
  rewrite readDigits_pad by (change (10 ^ Z.of_nat 2) with 100; lia).
  cbn [mbind option_bind]. rewrite in_range_ok by lia. cbn [mbind option_bind].
  rewrite expect_String. cbn [mbind option_bind].
  rewrite readDigits_pad by (change (10 ^ Z.of_nat 2) with 100; lia).
  cbn [mbind option_bind]. rewrite in_range_ok by lia. cbn [mbind option_bind].
  rewrite expect_String. cbn [mbind option_bind].
  rewrite readDigits_pad by (change (10 ^ Z.of_nat 2) with 100; lia).
  cbn [mbind option_bind]. rewrite in_range_ok by lia. cbn [mbind option_bind].
  rewrite expect_String. cbn [mbind option_bind].
  rewrite readDigits_pad by (change (10 ^ Z.of_nat 2) with 100; lia).
  cbn [mbind option_bind]. rewrite in_range_ok by lia. cbn [mbind option_bind].
  rewrite expect_String. cbn [mbind option_bind].
  rewrite readDigits_pad by (change (10 ^ Z.of_nat 2) with 100; lia).
  cbn [mbind option_bind]. rewrite in_range_ok by lia. cbn [mbind option_bind].
  rewrite expect_String. cbn [mbind option_bind].
  rewrite readDigits_pad by (change (10 ^ Z.of_nat 3) with 1000; lia).
  cbn [mbind option_bind].
  rewrite expect_String. cbn [mbind option_bind].
  replace (0 * 10 ^ Z.of_nat 2 + (MonthFromTime tv + 1) - 1) with (MonthFromTime tv) by lia.
  rewrite !Z.mul_0_l, !Z.add_0_l.
  rewrite MakeDate_fields. now apply TimeClip_time_value.
Qed.

End DateFacts.

(** * Timestamps as strings

    For the years 0000 to 9999 the order of the printed timestamps, code unit
    by code unit as JavaScript compares strings, is the order of the time
    values. *)

Section StringOrder.

Import Date.

Lemma N_of_digit d : 0 <= d <= 9 -> N_of_ascii (digit d) = Z.to_N (48 + d).
Proof.
  intros H.
  assert (Hd : d = 0 \/ d = 1 \/ d = 2 \/ d = 3 \/ d = 4 \/ d = 5 \/ d = 6
               \/ d = 7 \/ d = 8 \/ d = 9) by lia.
  repeat (destruct Hd as [-> | Hd]; [reflexivity|]). subst d. reflexivity.
Qed.

Lemma compare_digit a b :
  0 <= a <= 9 -> 0 <= b <= 9 ->
  Ascii.compare (digit a) (digit b) = (a ?= b).
Proof.
  intros Ha Hb. unfold Ascii.compare.
  rewrite !N_of_digit by assumption.
  rewrite Z2N.inj_compare by lia. apply Z.add_compare_mono_l.
Qed.

Lemma compare_String c r1 r2 :
  String.compare (String c r1) (String c r2) = String.compare r1 r2.
Proof. cbn [String.compare]. unfold Ascii.compare. now rewrite N.compare_refl. Qed.

Lemma pow10_pos w : 0 < 10 ^ Z.of_nat w.
Proof. apply Z.pow_pos_nonneg; lia. Qed.

Lemma pow10_succ w : 10 ^ Z.of_nat (S w) = 10 * 10 ^ Z.of_nat w.
Proof. rewrite Nat2Z.inj_succ, Z.pow_succ_r; lia. Qed.

Lemma leading_digit w n :
  0 <= n < 10 ^ Z.of_nat (S w) -> 0 <= n / 10 ^ Z.of_nat w <= 9.
Proof.
  rewrite pow10_succ. pose proof (pow10_pos w). intros Hn.
  split; [apply Z.div_pos; lia|].
  assert (n / 10 ^ Z.of_nat w < 10); [|lia].
  apply Z.div_lt_upper_bound; lia.
Qed.

Lemma compare_pad_eq w : forall n r1 r2,
  String.compare (pad w n r1) (pad w n r2) = String.compare r1 r2.
Proof.
  induction w as [|w IH]; intros n r1 r2; [reflexivity|].
  cbn [pad]. now rewrite compare_String.
Qed.

Lemma compare_pad_lt w : forall a b r1 r2,
  0 <= a -> a < b -> b < 10 ^ Z.of_nat w ->
  String.compare (pad w a r1) (pad w b r2) = Lt.
Proof.
  induction w as [|w IH]; intros a b r1 r2 Ha Hab Hb.
  - change (10 ^ Z.of_nat 0) with 1 in Hb. lia.
  - cbn [pad String.compare].
    pose proof (pow10_pos w) as Hp.
    pose proof (leading_digit w a ltac:(lia)) as Hqa.
    pose proof (leading_digit w b ltac:(lia)) as Hqb.
    rewrite compare_digit by assumption.
    pose proof (Z.div_mod a (10 ^ Z.of_nat w) ltac:(lia)) as Ea.
    pose proof (Z.div_mod b (10 ^ Z.of_nat w) ltac:(lia)) as Eb.
    pose proof (Z.mod_pos_bound a (10 ^ Z.of_nat w) Hp) as Hra.
    pose proof (Z.mod_pos_bound b (10 ^ Z.of_nat w) Hp) as Hrb.
    destruct (Z.compare_spec (a / 10 ^ Z.of_nat w) (b / 10 ^ Z.of_nat w))
      as [Heq|Hlt|Hgt].
    + apply IH; [lia| |lia]. rewrite Heq in Ea. lia.
    + reflexivity.
    + exfalso. nia.
Qed.

(** One field of the format: when it is the smaller one the strings are in
    order, and when it is the same the rest decides. *)
Lemma compare_field w a b r1 r2 :
  0 <= a -> a <= b -> b < 10 ^ Z.of_nat w ->
  (a = b -> String.compare r1 r2 = Lt) ->
  String.compare (pad w a r1) (pad w b r2) = Lt.
Proof.
  intros Ha Hab Hb Hrest.
  destruct (Z.eq_dec a b) as [->|Hne].
  - rewrite compare_pad_eq. now apply Hrest.
  - apply compare_pad_lt; lia.
Qed.

Lemma YearFromTime_mono a b : a <= b -> YearFromTime a <= YearFromTime b.
Proof.
  intros Hab. unfold YearFromTime. apply YearFromDay_largest.
  destruct (YearFromDay_spec (Day a)) as [H _].
  assert (Day a <= Day b)
    by (unfold Day, msPerDay; apply Z.div_le_mono; lia).
  lia.
Qed.

Lemma MonthStart_mono leap m1 m2 :
  0 <= m1 -> m1 <= m2 -> MonthStart leap m1 <= MonthStart leap m2.
Proof.
  intros H1 H12.
  assert (Hc : forall m, 0 <= m ->
            m = 0 \/ m = 1 \/ m = 2 \/ m = 3 \/ m = 4 \/ m = 5 \/ m = 6 \/ m = 7
            \/ m = 8 \/ m = 9 \/ m = 10 \/ m = 11 \/ 12 <= m) by lia.
  assert (Hbig : forall m, 12 <= m ->
            MonthStart leap m = 365 + (if leap then 1 else 0)).
  { intros m Hm. unfold MonthStart.
    destruct m as [|p|p]; try lia.
    do 4 (destruct p as [p|p|]; try lia; try reflexivity). }
  assert (Hsmall : forall m, 0 <= m -> MonthStart leap m
                                       <= 365 + (if leap then 1 else 0)).
  { intros m Hm. destruct (Hc m Hm) as [->|[->|[->|[->|[->|[->|[->|[->|[->|[->|[->|[->|Hm']]]]]]]]]]]];
      try (destruct leap; cbn; lia). rewrite (Hbig m Hm'). lia. }
  destruct (Hc m2 ltac:(lia)) as [->|[->|[->|[->|[->|[->|[->|[->|[->|[->|[->|[->|Hm2]]]]]]]]]]]];
    try (destruct (Hc m1 H1) as [->|[->|[->|[->|[->|[->|[->|[->|[->|[->|[->|[->|Hm1]]]]]]]]]]]];
         try lia; destruct leap; cbn; lia).
  rewrite (Hbig m2 Hm2). now apply Hsmall.
Qed.

Lemma MonthFromDay_mono (leap : bool) (d1 d2 : Z) :
  0 <= d1 -> d1 <= d2 -> d2 < (if leap then 366 else 365) ->
  MonthFromDay leap d1 <= MonthFromDay leap d2.
Proof.
  intros H1 H12 H2.
  destruct (MonthFromDay_bounds leap d1 ltac:(lia)) as [[Hlo1 _] _].
  destruct (MonthFromDay_bounds leap d2 ltac:(lia)) as [[_ Hhi2] _].
  pose proof (MonthFromDay_range leap d1).
  pose proof (MonthFromDay_range leap d2).
  destruct (Z_le_gt_dec (MonthFromDay leap d1) (MonthFromDay leap d2)) as [|Hgt];
    [assumption|].
  pose proof (MonthStart_mono leap (MonthFromDay leap d2 + 1)
                (MonthFromDay leap d1) ltac:(lia) ltac:(lia)).
  lia.
Qed.

Lemma date_order a b :
  a <= b -> YearFromTime a = YearFromTime b ->
  MonthFromTime a <= MonthFromTime b
  /\ (MonthFromTime a = MonthFromTime b ->
      DateFromTime a <= DateFromTime b
      /\ (DateFromTime a = DateFromTime b -> Day a = Day b)).
Proof.
  intros Hab Hy.
  assert (Hd : Day a <= Day b)
    by (unfold Day, msPerDay; apply Z.div_le_mono; lia).
  pose proof (DayWithinYear_range a) as Ra.
  pose proof (DayWithinYear_range b) as Rb.
  unfold DateFromTime, MonthFromTime, InLeapYear in *.
  unfold DaysInYear in Ra, Rb. rewrite Hy in *.
  assert (Hw : DayWithinYear a <= DayWithinYear b)
    by (unfold DayWithinYear; rewrite Hy; lia).
  split.
  - apply MonthFromDay_mono; lia.
  - intros Hm. rewrite Hm. split; [lia|].
    intros Hdate. unfold DayWithinYear in *. rewrite Hy in Hdate. lia.
Qed.

Lemma time_of_day_order a b :
  Day a = Day b -> a < b ->
  HourFromTime a <= HourFromTime b
  /\ (HourFromTime a = HourFromTime b ->
      MinFromTime a <= MinFromTime b
      /\ (MinFromTime a = MinFromTime b ->
          SecFromTime a <= SecFromTime b
          /\ (SecFromTime a = SecFromTime b -> msFromTime a < msFromTime b))).
Proof.
  unfold Day, HourFromTime, MinFromTime, SecFromTime, msFromTime,
    msPerDay, msPerHour, msPerMinute, msPerSecond.
  intros Hd Hab.
  split; [Z.div_mod_to_equations; lia|]. intros Hh.
  split; [Z.div_mod_to_equations; lia|]. intros Hm.
  split; [Z.div_mod_to_equations; lia|]. intros Hs.
  Z.div_mod_to_equations. lia.
Qed.

(** For four-digit years the printed timestamps are ordered as strings the
    way their time values are ordered. *)
Lemma format_lt a b :
  0 <= YearFromTime a -> YearFromTime b <= 9999 -> a < b ->
  String.compare (format a) (format b) = Lt.
Proof.
  intros Hya Hyb Hab.
  pose proof (YearFromTime_mono a b ltac:(lia)) as Hy.
  pose proof (MonthFromTime_range a). pose proof (MonthFromTime_range b).
  pose proof (DateFromTime_range a). pose proof (DateFromTime_range b).
  destruct (time_fields_range a) as (? & ? & ? & ?).
  destruct (time_fields_range b) as (? & ? & ? & ?).
  unfold format, padYear.
  replace ((0 <=? YearFromTime a) && (YearFromTime a <=? 9999)) with true
    by (symmetry; apply andb_true_intro; split; apply Z.leb_le; lia).
  replace ((0 <=? YearFromTime b) && (YearFromTime b <=? 9999)) with true
    by (symmetry; apply andb_true_intro; split; apply Z.leb_le; lia).
  apply compare_field; [lia|lia|change (10 ^ Z.of_nat 4) with 10000; lia|].
  intros Ey. destruct (date_order a b ltac:(lia) Ey) as [Hmo Hrest].
  rewrite compare_String.
  apply compare_field; [lia|lia|change (10 ^ Z.of_nat 2) with 100; lia|].
  intros Emo. destruct (Hrest ltac:(lia)) as [Hda Hday].
  rewrite compare_String.
  apply compare_field; [lia|lia|change (10 ^ Z.of_nat 2) with 100; lia|].
  intros Eda. specialize (Hday Eda).
  destruct (time_of_day_order a b Hday Hab) as [Hh Hrest'].
  rewrite compare_String.
  apply compare_field; [lia|lia|change (10 ^ Z.of_nat 2) with 100; lia|].
  intros Eh. destruct (Hrest' Eh) as [Hmi Hrest2].
  rewrite compare_String.
  apply compare_field; [lia|lia|change (10 ^ Z.of_nat 2) with 100; lia|].
  intros Emi. destruct (Hrest2 Emi) as [Hs Hms].
  rewrite compare_String.
  apply compare_field; [lia|lia|change (10 ^ Z.of_nat 2) with 100; lia|].
  intros Es. specialize (Hms Es).
  rewrite compare_String.
  apply compare_pad_lt; [lia|lia|change (10 ^ Z.of_nat 3) with 1000; lia].
Qed.

(** Past the year 9999 the string order breaks: the sign of a six-digit year
    sorts before every digit. *)
Lemma format_lt_year_10000 :
  String.compare (format 253402300799999) (format 253402300800000) = Gt.
Proof. vm_compute. reflexivity. Qed.

End StringOrder.

(** * Facts about the process *)

Lemma probe_instant_monotone n : probe_instant n <= probe_instant (S n).
Proof. unfold probe_instant. lia. Qed.

Lemma probe_reading_bounds n :
  1730613600123 <= probe_instant n / 1000 <= 1730613600824.
Proof. unfold probe_instant. Z.div_mod_to_equations. lia. Qed.

Lemma probe_world_monotone : monotone probe_world.
Proof. intros n. apply probe_instant_monotone. Qed.

Lemma probe_world_in_range : clock_in_range probe_world.
Proof.
  intros n. unfold reading. cbn [instant probe_world].
  pose proof (probe_reading_bounds n). unfold Date.maxTime. lia.
Qed.

Lemma bare_world_in_range : clock_in_range bare_world.
Proof. exact probe_world_in_range. Qed.

Lemma blank_world_in_range : clock_in_range blank_world.
Proof. exact probe_world_in_range. Qed.

Lemma clock_in_range_time_values w : clock_in_range w -> time_values w.
Proof.
  intros H n. destruct (H n). unfold Date.is_time_value, Date.maxTime in *. lia.
Qed.

Lemma clock_in_range_tick w : clock_in_range w -> clock_in_range (tick w).
Proof. intros H n. exact (H n). Qed.

Lemma monotone_tick w : monotone w -> monotone (tick w).
Proof. intros H n. exact (H n). Qed.

Lemma monotone_le w : monotone w -> forall i j, (i <= j)%nat -> instant w i <= instant w j.
Proof.
  intros H i j Hij. induction Hij as [|j Hij IH]; [lia|].
  pose proof (H j). lia.
Qed.

Lemma reading_le w i j :
  monotone w -> (i <= j)%nat -> reading w i <= reading w j.
Proof.
  intros H Hij. unfold reading.
  apply Z.div_le_mono; [lia|]. now apply monotone_le.
Qed.

(** A millisecond of real time shows on the clock. *)
Lemma reading_lt w i j :
  instant w i + 1000 <= instant w j -> reading w i < reading w j.
Proof. unfold reading. intros H. Z.div_mod_to_equations. lia. Qed.

(** * The generation functions, run *)

Lemma getServerSideProps_run w :
  Ssr.getServerSideProps w =
    (Fulfilled (JS.Object
       [("props", JS.Object
          [("serverTime", JS.Str (Date.format (reading w (reads w))));
           ("hostname", hostname_in w)])]),
     tick w).
Proof.
  unfold Ssr.getServerSideProps, async, bind, Date_new, bind, Date_now, now,
    toISOString, process_env, env_value, ret, hostname_in. cbn.
  destruct (env w !! "HOSTNAME") as [s|]; [|reflexivity].
  unfold JS.or. cbn. now destruct (String.eqb s EmptyString).
Qed.

Lemma getStaticProps_run w :
  Isr.getStaticProps w =
    (match Date.TimeClip (reading w (S (reads w)) + 10000) with
     | Some next =>
         Fulfilled (JS.Object
           [("props", JS.Object
              [("renderTime", JS.Str (Date.format (reading w (reads w))));
               ("hostname", hostname_in w);
               ("nextRevalidation", JS.Str (Date.format next))]);
            ("revalidate", JS.Number 10)])
     | None => Rejected JS.RangeError
     end,
     tick (tick w)).
Proof.
  unfold Isr.getStaticProps, async, bind, Date_new, bind, Date_now, now,
    toISOString, process_env, env_value, ret, hostname_in, Date.of_number. cbn.
  change (reading (tick w)) with (reading w).
  destruct (Date.TimeClip (reading w (S (reads w)) + 10000)); cbn;
    [|reflexivity].
  destruct (env w !! "HOSTNAME") as [s|]; [|reflexivity].
  unfold JS.or. cbn. now destruct (String.eqb s EmptyString).
Qed.

Lemma getStaticProps_in_range w :
  clock_in_range w ->
  Isr.getStaticProps w =
    (Fulfilled (JS.Object
       [("props", JS.Object
          [("renderTime", JS.Str (Date.format (reading w (reads w))));
           ("hostname", hostname_in w);
           ("nextRevalidation",
            JS.Str (Date.format (reading w (S (reads w)) + 10000)))]);
        ("revalidate", JS.Number 10)]),
     tick (tick w)).
Proof.
  intros H. rewrite getStaticProps_run.
  rewrite TimeClip_time_value; [reflexivity|].
  destruct (H (S (reads w))). unfold Date.is_time_value, Date.maxTime in *. lia.
Qed.

(** Within ten seconds of the last time value the regenerated page's
    generation is rejected: [new Date(Date.now() + 10000)] is an invalid date
    there. *)
Lemma getStaticProps_last_world :
  fst (Isr.getStaticProps last_world) = Rejected JS.RangeError.
Proof. vm_compute. reflexivity. Qed.

Lemma hostname_in_cases w :
  (env w !! "HOSTNAME" = None /\ hostname_in w = JS.Str fallback)
  \/ (env w !! "HOSTNAME" = Some EmptyString /\ hostname_in w = JS.Str fallback)
  \/ (exists s, s <> EmptyString /\ env w !! "HOSTNAME" = Some s
               /\ hostname_in w = JS.Str s).
Proof.
  unfold hostname_in. destruct (env w !! "HOSTNAME") as [s|]; [|now left].
  destruct (String.eqb_spec s EmptyString) as [->|Hne].
  - right. now left.
  - right. right. now exists s.
Qed.

(** * The claims *)

(** C1.  The regenerated page's generation function returns a record whose
    [revalidate] field is the number 10, the window in seconds; the
    server-rendered page's generation function returns a record that has no
    [revalidate] field.  (The regenerated page's function returns a record
    in every process whose clock is in range.) *)
Theorem revalidate_policy (w : World) :
  (exists out, fst (Ssr.getServerSideProps w) = Fulfilled out
               /\ JS.has out "revalidate" = false
               /\ JS.keys out = ["props"])
  /\ (clock_in_range w ->
      exists out, fst (Isr.getStaticProps w) = Fulfilled out
                  /\ JS.get out "revalidate" = JS.Number 10
                  /\ JS.keys out = ["props"; "revalidate"]).
Proof.
  split.
  - rewrite getServerSideProps_run. eexists. repeat split.
  - intros H. rewrite (getStaticProps_in_range w H). eexists. repeat split.
Qed.

Lemma revalidate_policy_witness :
  exists out, fst (Isr.getStaticProps probe_world) = Fulfilled out
              /\ JS.get out "revalidate" = JS.Number 10
              /\ JS.keys out = ["props"; "revalidate"].
Proof.
  apply (proj2 (revalidate_policy probe_world)). exact probe_world_in_range.
Defined.





(** C3.  When HOSTNAME is absent from the environment, the host field of the
    snapshot either generation function produces is the fallback string: a
    string, not null or undefined, and the run does not throw. *)
Theorem fallback_when_absent (w : World) :
  env w !! "HOSTNAME" = None ->
  (exists out, fst (Ssr.getServerSideProps w) = Fulfilled out
               /\ host_field out = JS.Str fallback)
  /\ (clock_in_range w ->
      exists out, fst (Isr.getStaticProps w) = Fulfilled out
                  /\ host_field out = JS.Str fallback).
Proof.
  intros Habsent.
  assert (Hh : hostname_in w = JS.Str fallback)
    by (unfold hostname_in; now rewrite Habsent).
  split.
  - rewrite getServerSideProps_run. eexists. split; [reflexivity|]. exact Hh.
  - intros H. rewrite (getStaticProps_in_range w H).
    eexists. split; [reflexivity|]. exact Hh.
Qed.

Lemma fallback_when_absent_witness :
  (exists out, fst (Ssr.getServerSideProps bare_world) = Fulfilled out
               /\ host_field out = JS.Str fallback)
  /\ (exists out, fst (Isr.getStaticProps bare_world) = Fulfilled out
                  /\ host_field out = JS.Str fallback).
Proof.
  destruct (fallback_when_absent bare_world) as [Hs Hi]; [reflexivity|].
  split; [exact Hs|]. apply Hi. exact bare_world_in_range.
Defined.

Lemma requests_fst_length n : forall w, length (fst (Ssr.requests n w)) = n.
Proof.
  induction n as [|n IH]; intros w; [reflexivity|].
  cbn [Ssr.requests]. rewrite getServerSideProps_run.
  specialize (IH (tick w)). destruct (Ssr.requests n (tick w)) as [ps w2].
  cbn in *. now rewrite IH.
Qed.

Lemma later_S k w : later (S k) w = later k (tick w).
Proof.
  unfold later. induction k as [|k IH]; [reflexivity|].
  change (tick (Nat.iter (S k) tick w) = tick (Nat.iter k tick (tick w))).
  now rewrite IH.
Qed.

Lemma reads_later k w : reads (later k w) = (reads w + k)%nat.
Proof.
  unfold later. induction k as [|k IH]; [cbn; lia|].
  change (S (reads (Nat.iter k tick w)) = (reads w + S k)%nat). lia.
Qed.

Lemma instant_later k w : instant (later k w) = instant w.
Proof. unfold later. induction k as [|k IH]; [reflexivity|exact IH]. Qed.

Lemma env_later k w : env (later k w) = env w.
Proof. unfold later. induction k as [|k IH]; [reflexivity|exact IH]. Qed.

(** The [k]-th of [n] requests is answered as a call of the generation
    function in the world as it is then: nothing of the earlier calls is left
    but the time they took. *)
Lemma requests_lookup n : forall w k,
  (k < n)%nat ->
  fst (Ssr.requests n w) !! k = Some (fst (Ssr.getServerSideProps (later k w))).
Proof.
  induction n as [|n IH]; intros w k Hk; [lia|].
  cbn [Ssr.requests].
  destruct (Ssr.getServerSideProps w) as [p w1] eqn:E.
  assert (Hw1 : w1 = tick w) by (rewrite getServerSideProps_run in E; congruence).
  subst w1. specialize (IH (tick w)).
  destruct (Ssr.requests n (tick w)) as [ps w2]. cbn [fst] in *.
  destruct k as [|k].
  - change (later 0 w) with w. now rewrite E.
  - rewrite later_S. change ((p :: ps) !! S k) with (ps !! k). apply IH. lia.
Qed.

(** C4.  A request to the server-rendered page is answered by a run of the
    generation function that returns at once (the promise is settled when the
    call returns) a snapshot whose timestamp is the clock reading of that
    moment in the ISO format and whose host field is the host name of that
    moment.  The run leaves nothing behind but the passing of time, the
    output is determined by the clock reading and the HOSTNAME value alone,
    and each of several requests in a row is answered as a call in the world
    of its own moment. *)
Theorem on_demand_generation (w : World) :
  (exists out,
      Ssr.getServerSideProps w = (Fulfilled out, tick w)
      /\ JS.get (JS.get out "props") "serverTime"
         = JS.Str (Date.format (reading w (reads w)))
      /\ host_field out = hostname_in w)
  /\ env (snd (Ssr.getServerSideProps w)) = env w
  /\ (Date.is_time_value (reading w (reads w)) ->
      Date.parse (Date.format (reading w (reads w))) = Some (reading w (reads w)))
  /\ (forall w', reading w' (reads w') = reading w (reads w) ->
                 env w' !! "HOSTNAME" = env w !! "HOSTNAME" ->
                 fst (Ssr.getServerSideProps w') = fst (Ssr.getServerSideProps w))
  /\ (forall n k, (k < n)%nat ->
         fst (Ssr.requests n w) !! k
         = Some (fst (Ssr.getServerSideProps (later k w)))).
Proof.
  split; [|split; [|split; [|split]]].
  - rewrite getServerSideProps_run. eexists. repeat split.
  - now rewrite getServerSideProps_run.
  - apply parse_format.
  - intros w' Hclock Henv. rewrite !getServerSideProps_run. cbn [fst].
    unfold hostname_in. now rewrite Hclock, Henv.
  - intros n k Hk. now apply requests_lookup.
Qed.

Lemma on_demand_generation_witness :
  Date.parse (Date.format (reading probe_world (reads probe_world)))
  = Some (reading probe_world (reads probe_world)).
Proof.
  apply (on_demand_generation probe_world).
  apply (clock_in_range_time_values _ probe_world_in_range).
Defined.

(** C5, as stated, fails on pages/isr.js: the props of the regenerated page
    hold a third field, [nextRevalidation]. *)
Lemma props_fields_counterexample :
  exists out, fst (Isr.getStaticProps probe_world) = Fulfilled out
              /\ JS.keys (JS.get out "props")
                 = ["renderTime"; "hostname"; "nextRevalidation"]
              /\ ~ snapshot_fields_only (JS.get out "props").
Proof.
  rewrite (getStaticProps_in_range _ probe_world_in_range).
  eexists. split; [reflexivity|]. split; [reflexivity|].
  intros (tk & hk & ts & host & E). cbn in E. discriminate E.
Qed.

(** C5, amended.  The props of the server-rendered page consist exactly of
    the generation timestamp and the host name, both strings.  The props of
    the regenerated page consist of those two and a third string field,
    [nextRevalidation]: the ISO timestamp of ten seconds after a second
    reading of the clock. *)
Theorem props_fields (w : World) :
  (exists out ts host,
      fst (Ssr.getServerSideProps w) = Fulfilled out
      /\ JS.get out "props"
         = JS.Object [("serverTime", JS.Str ts); ("hostname", JS.Str host)]
      /\ ts = Date.format (reading w (reads w))
      /\ snapshot_fields_only (JS.get out "props"))
  /\ (clock_in_range w ->
      exists out ts host next,
        fst (Isr.getStaticProps w) = Fulfilled out
        /\ JS.get out "props"
           = JS.Object [("renderTime", JS.Str ts); ("hostname", JS.Str host);
                        ("nextRevalidation", JS.Str next)]
        /\ ts = Date.format (reading w (reads w))
        /\ next = Date.format (reading w (S (reads w)) + 10000)).
Proof.
  assert (Hh : exists h, hostname_in w = JS.Str h).
  { destruct (hostname_in_cases w) as [[_ E]|[[_ E]|(s & _ & _ & E)]];
      rewrite E; eauto. }
  destruct Hh as [h Hh].
  split.
  - rewrite getServerSideProps_run. eexists _, _, h. cbn. rewrite Hh.
    repeat split. now eexists _, _, _, _.
  - intros H. rewrite (getStaticProps_in_range w H). eexists _, _, h, _.
    cbn. rewrite Hh. repeat split.
Qed.

Lemma props_fields_witness :
  exists out ts host next,
    fst (Isr.getStaticProps probe_world) = Fulfilled out
    /\ JS.get out "props"
       = JS.Object [("renderTime", JS.Str ts); ("hostname", JS.Str host);
                    ("nextRevalidation", JS.Str next)]
    /\ ts = Date.format (reading probe_world (reads probe_world))
    /\ next = Date.format (reading probe_world (S (reads probe_world)) + 10000).
Proof.
  apply (proj2 (props_fields probe_world)). exact probe_world_in_range.
Defined.

(** How Node routes a request depends on its method, its version and its
    Host and Expect headers, and on nothing else. *)
Lemma route_of_depends_on req1 req2 :
  Http.method req1 = Http.method req2 ->
  Http.httpVersion req1 = Http.httpVersion req2 ->
  Http.header "host" (Http.headers req1) = Http.header "host" (Http.headers req2) ->
  Http.header "expect" (Http.headers req1)
    = Http.header "expect" (Http.headers req2) ->
  Http.route_of req1 = Http.route_of req2.
Proof. unfold Http.route_of. now intros -> -> -> ->. Qed.




(** C10.  The fallback replaces every falsy HOSTNAME value, an empty string
    as well as an absent one, so the host field of a snapshot is a string
    that is never empty: the fallback when HOSTNAME is absent or empty, the
    value of HOSTNAME otherwise.  This holds for both generation
    functions. *)
Theorem fallback_when_falsy (w : World) :
  let host_ok (out : JS.value) :=
    exists h, host_field out = JS.Str h
              /\ h <> EmptyString
              /\ (JS.truthy (env_value w "HOSTNAME") = false -> h = fallback)
              /\ (env w !! "HOSTNAME" = Some EmptyString -> h = fallback)
              /\ (JS.truthy (env_value w "HOSTNAME") = true ->
                  env w !! "HOSTNAME" = Some h) in
  (exists out, fst (Ssr.getServerSideProps w) = Fulfilled out /\ host_ok out)
  /\ (clock_in_range w ->
      exists out, fst (Isr.getStaticProps w) = Fulfilled out /\ host_ok out).
Proof.
  intros host_ok.
  assert (Hh : exists h, hostname_in w = JS.Str h
              /\ h <> EmptyString
              /\ (JS.truthy (env_value w "HOSTNAME") = false -> h = fallback)
              /\ (env w !! "HOSTNAME" = Some EmptyString -> h = fallback)
              /\ (JS.truthy (env_value w "HOSTNAME") = true ->
                  env w !! "HOSTNAME" = Some h)).
  { unfold hostname_in, env_value.
    destruct (env w !! "HOSTNAME") as [s|].
    - destruct (String.eqb_spec s EmptyString) as [->|Hne].
      + exists fallback. cbn. repeat split; try discriminate; congruence.
      + exists s. cbn. repeat split; try assumption; try congruence.
        destruct (String.eqb_spec s EmptyString); [contradiction|discriminate].
    - exists fallback. cbn. repeat split; try discriminate; congruence. }
  split.
  - rewrite getServerSideProps_run. eexists. split; [reflexivity|]. exact Hh.
  - intros H. rewrite (getStaticProps_in_range w H).
    eexists. split; [reflexivity|]. exact Hh.
Qed.

Lemma fallback_when_falsy_witness :
  exists out, fst (Isr.getStaticProps blank_world) = Fulfilled out
    /\ exists h, host_field out = JS.Str h
              /\ h <> EmptyString
              /\ (JS.truthy (env_value blank_world "HOSTNAME") = false -> h = fallback)
              /\ (env blank_world !! "HOSTNAME" = Some EmptyString -> h = fallback)
              /\ (JS.truthy (env_value blank_world "HOSTNAME") = true ->
                  env blank_world !! "HOSTNAME" = Some h).
Proof.
  apply (proj2 (fallback_when_falsy blank_world)). exact blank_world_in_range.
Defined.

(** * Timestamps in order *)

Lemma ts_le_format a b :
  Date.is_time_value a -> Date.is_time_value b -> a <= b ->
  ts_le (Date.format a) (Date.format b).
Proof. intros Ha Hb Hab. exists a, b. now rewrite !parse_format. Qed.

Lemma ts_lt_format a b :
  Date.is_time_value a -> Date.is_time_value b -> a < b ->
  ts_lt (Date.format a) (Date.format b).
Proof. intros Ha Hb Hab. exists a, b. now rewrite !parse_format. Qed.

Lemma ts_lt_irrefl a : ~ ts_lt a a.
Proof. intros (x & y & Hx & Hy & Hlt). rewrite Hx in Hy. injection Hy as ->. lia. Qed.

Lemma served_timestamps_lookup n w k :
  (k < n)%nat ->
  served_timestamps n w !! k
  = Some (Some (Date.format (reading w (reads w + k)))).
Proof.
  intros Hk. unfold served_timestamps.
  rewrite list_lookup_fmap, (requests_lookup n w k Hk).
  rewrite getServerSideProps_run. cbn.
  unfold reading. now rewrite instant_later, reads_later.
Qed.

Lemma format_le a b :
  0 <= Date.YearFromTime a -> Date.YearFromTime b <= 9999 -> a <= b ->
  String.leb (Date.format a) (Date.format b) = true.
Proof.
  intros Hya Hyb Hab. unfold String.leb.
  destruct (Z.eq_dec a b) as [->|Hne].
  - replace (String.compare (Date.format b) (Date.format b)) with Eq;
      [reflexivity|].
    symmetry. generalize (Date.format b) as s.
    induction s as [|c s IH]; [reflexivity|]. now rewrite compare_String.
  - now rewrite format_lt by lia.
Qed.

(** C6.  Of [n] requests in a row to the server-rendered page, under a clock
    that does not run backwards, a later one never shows an earlier
    timestamp than an earlier one, and shows a strictly later timestamp when
    at least a millisecond of real time lies between the two.  Timestamps
    are compared as the instants they denote; in the years 0000 to 9999 the
    same holds of the timestamps compared as strings. *)
Theorem served_timestamps_increase (w : World) (n i j : nat) :
  monotone w -> time_values w -> (i <= j < n)%nat ->
  exists ti tj,
    served_timestamps n w !! i = Some (Some ti)
    /\ served_timestamps n w !! j = Some (Some tj)
    /\ ts_le ti tj
    /\ (instant w (reads w + i) + 1000 <= instant w (reads w + j) -> ts_lt ti tj)
    /\ (0 <= Date.YearFromTime (reading w (reads w + i)) ->
        Date.YearFromTime (reading w (reads w + j)) <= 9999 ->
        String.leb ti tj = true
        /\ (instant w (reads w + i) + 1000 <= instant w (reads w + j) ->
            String.ltb ti tj = true)).
Proof.
  intros Hmono Htv Hij.
  exists (Date.format (reading w (reads w + i))),
         (Date.format (reading w (reads w + j))).
  rewrite !served_timestamps_lookup by lia.
  assert (Hle : reading w (reads w + i) <= reading w (reads w + j))
    by (apply reading_le; [assumption|lia]).
  repeat split.
  - apply ts_le_format; [apply Htv..|]. exact Hle.
  - intros Hsep. apply ts_lt_format; [apply Htv..|]. now apply reading_lt.
  - now apply format_le.
  - intros Hsep. unfold String.ltb.
    rewrite format_lt; [reflexivity|assumption..|]. now apply reading_lt.
Qed.

Lemma served_timestamps_increase_witness :
  exists ti tj,
    served_timestamps 5 probe_world !! 1%nat = Some (Some ti)
    /\ served_timestamps 5 probe_world !! 3%nat = Some (Some tj)
    /\ ts_le ti tj /\ ts_lt ti tj
    /\ String.leb ti tj = true /\ String.ltb ti tj = true.
Proof.
  destruct (served_timestamps_increase probe_world 5 1 3)
    as (ti & tj & Hi & Hj & Hle & Hlt & Hstr).
  - exact probe_world_monotone.
  - exact (clock_in_range_time_values _ probe_world_in_range).
  - lia.
  - assert (Hsep : instant probe_world (reads probe_world + 1) + 1000
                   <= instant probe_world (reads probe_world + 3))
      by (vm_compute; discriminate).
    destruct Hstr as [Hsle Hslt].
    + vm_compute. discriminate.
    + vm_compute. discriminate.
    + exists ti, tj. repeat split; auto.
Defined.

(** On the sample clock, requests 1 and 3 are 1.4 ms apart and show
    different milliseconds. *)
Lemma served_timestamps_probe :
  served_timestamps 4 probe_world
  = [Some "2024-11-03T06:00:00.123Z"; Some "2024-11-03T06:00:00.124Z";
     Some "2024-11-03T06:00:00.124Z"; Some "2024-11-03T06:00:00.125Z"].
Proof. vm_compute. reflexivity. Qed.

(** * The cache, step by step *)

Section CacheFacts.

Import Cache.

Variable generate : World -> promise JS.value * World.

Lemma is_stale_true c tv :
  is_stale c tv = true <-> producedAt c + window c * 1000 <= tv.
Proof.
  unfold is_stale, status_at.
  destruct (Z.leb_spec (window c * 1000) (tv - producedAt c)); split;
    intros; try discriminate; try reflexivity; lia.
Qed.

Lemma is_stale_false c tv :
  is_stale c tv = false <-> tv < producedAt c + window c * 1000.
Proof.
  unfold is_stale, status_at.
  destruct (Z.leb_spec (window c * 1000) (tv - producedAt c)); split;
    intros; try discriminate; try reflexivity; lia.
Qed.

Lemma request_fresh c w :
  inflight c = None -> is_stale c (reading w (reads w)) = false ->
  request generate c w = (snapshot c, c, tick w).
Proof. intros Hi Hs. unfold request, now. now rewrite Hi, Hs. Qed.

Lemma request_inflight c w p :
  inflight c = Some p -> request generate c w = (snapshot c, c, tick w).
Proof. intros Hi. unfold request, now. now rewrite Hi. Qed.

Lemma request_stale c w :
  inflight c = None -> is_stale c (reading w (reads w)) = true ->
  request generate c w =
    (snapshot c,
     {| snapshot := snapshot c; window := window c;
        producedAt := producedAt c;
        inflight := Some (fst (generate (tick w)));
        regenerations := S (regenerations c) |},
     snd (generate (tick w))).
Proof.
  intros Hi Hs. unfold request, now. rewrite Hi, Hs.
  now destruct (generate (tick w)).
Qed.

(** A request is answered with the cached snapshot, whatever the state. *)
Lemma request_response c w : fst (fst (request generate c w)) = snapshot c.
Proof.
  unfold request, now. destruct (inflight c); [reflexivity|].
  destruct (is_stale c (reading w (reads w))); [|reflexivity].
  now destruct (generate (tick w)).
Qed.

Lemma run_app evs1 : forall evs2 c w,
  run generate (evs1 ++ evs2) c w =
    let '(r1, c1, w1) := run generate evs1 c w in
    let '(r2, c2, w2) := run generate evs2 c1 w1 in
    ((r1 ++ r2)%list, c2, w2).
Proof.
  induction evs1 as [|ev evs1 IH]; intros evs2 c w.
  - cbn. now destruct (run generate evs2 c w) as [[r2 c2] w2].
  - destruct ev; cbn [run app].
    + destruct (request generate c w) as [[resp c1] w1].
      rewrite IH.
      destruct (run generate evs1 c1 w1) as [[r1 c1'] w1'].
      now destruct (run generate evs2 c1' w1') as [[r2 c2] w2].
    + destruct (regeneration_done c w) as [c1 w1]. apply IH.
Qed.

(** Requests that all arrive within the window leave the slot as it is. *)
Lemma run_fresh n : forall c w,
  inflight c = None ->
  (forall i, (i < n)%nat ->
     reading w (reads w + i) < producedAt c + window c * 1000) ->
  run generate (repeat Request n) c w = (repeat (snapshot c) n, c, later n w).
Proof.
  induction n as [|n IH]; intros c w Hi Hfresh; [reflexivity|].
  cbn [repeat run]. rewrite request_fresh; [|assumption|].
  - rewrite IH; [now rewrite later_S|assumption|].
    intros i Hlt. specialize (Hfresh (S i) ltac:(lia)).
    cbn [tick reads]. change (reading (tick w)) with (reading w).
    now replace (S (reads w) + i)%nat with (reads w + S i)%nat by lia.
  - apply is_stale_false. specialize (Hfresh 0%nat ltac:(lia)).
    now rewrite Nat.add_0_r in Hfresh.
Qed.

(** Whatever happens within the window, requests and the ends of
    regenerations in any order, leaves the slot as it is: every request gets
    the cached snapshot and none starts a regeneration. *)
Lemma run_within_window evs : forall c w,
  inflight c = None ->
  (forall i, (i < requests_in evs)%nat ->
     reading w (reads w + i) < producedAt c + window c * 1000) ->
  run generate evs c w
  = (repeat (snapshot c) (requests_in evs), c, later (requests_in evs) w).
Proof.
  induction evs as [|ev evs IH]; intros c w Hi Hfresh; [reflexivity|].
  destruct ev; cbn [run requests_in repeat].
  - rewrite request_fresh; [|assumption|].
    + rewrite IH; [now rewrite later_S|assumption|].
      intros i Hlt. specialize (Hfresh (S i)). cbn [requests_in] in Hfresh.
      specialize (Hfresh ltac:(lia)).
      cbn [tick reads]. change (reading (tick w)) with (reading w).
      now replace (S (reads w) + i)%nat with (reads w + S i)%nat by lia.
    + apply is_stale_false. specialize (Hfresh 0%nat). cbn [requests_in] in Hfresh.
      specialize (Hfresh ltac:(lia)). now rewrite Nat.add_0_r in Hfresh.
  - unfold regeneration_done. rewrite Hi. now apply IH.
Qed.

(** While a regeneration is in flight, requests start no other. *)
Lemma run_inflight n : forall c w p,
  inflight c = Some p ->
  run generate (repeat Request n) c w = (repeat (snapshot c) n, c, later n w).
Proof.
  induction n as [|n IH]; intros c w p Hi; [reflexivity|].
  cbn [repeat run]. rewrite (request_inflight c w p Hi).
  now rewrite (IH c (tick w) p Hi), later_S.
Qed.

End CacheFacts.

Lemma reading_later k w n : reading (later k w) n = reading w n.
Proof. unfold reading. now rewrite instant_later. Qed.

Lemma clock_in_range_later k w : clock_in_range w -> clock_in_range (later k w).
Proof. intros H n. rewrite reading_later. exact (H n). Qed.

Lemma scenario_world_monotone : monotone scenario_world.
Proof.
  intros n. cbn [instant scenario_world].
  do 12 (destruct n as [|n]; [vm_compute; discriminate|]).
  vm_compute. discriminate.
Qed.

Lemma scenario_world_in_range : clock_in_range scenario_world.
Proof.
  intros n. unfold reading. cbn [instant scenario_world].
  do 12 (destruct n as [|n]; [vm_compute; split; discriminate|]).
  vm_compute. split; discriminate.
Qed.

Lemma later_later a b w : later a (later b w) = later (a + b) w.
Proof.
  induction a as [|a IH]; [reflexivity|].
  change (tick (later a (later b w)) = tick (later (a + b) w)). now rewrite IH.
Qed.

(** C8.  Requests that arrive one after the other while the snapshot is
    stale and before the regeneration is done (the event loop takes them in
    some order) start one regeneration between them, the first one's: the
    generation function runs once, right after the first request, its
    promise is the one in flight afterwards, and the other requests do
    nothing but read the clock.  Every one of the requests is answered with
    the old snapshot, which the slot still holds. *)
Theorem single_flight (generate : World -> promise JS.value * World)
    (c : Cache.t) (w : World) (N : nat) :
  Cache.inflight c = None ->
  Cache.is_stale c (reading w (reads w)) = true ->
  (0 < N)%nat ->
  Cache.run generate (repeat Cache.Request N) c w
  = (repeat (Cache.snapshot c) N,
     {| Cache.snapshot := Cache.snapshot c;
        Cache.window := Cache.window c;
        Cache.producedAt := Cache.producedAt c;
        Cache.inflight := Some (fst (generate (tick w)));
        Cache.regenerations := S (Cache.regenerations c) |},
     later (N - 1) (snd (generate (tick w)))).
Proof.
  intros Hi Hs HN. destruct N as [|n]; [lia|].
  cbn [repeat Cache.run]. rewrite (request_stale generate c w Hi Hs).
  erewrite run_inflight by reflexivity. cbn [Cache.snapshot].
  now replace (S n - 1)%nat with n by lia.
Qed.

(** Three requests at 11 s on the slot filled at 0 s: the page is generated
    once, which with the three requests makes five clock readings. *)
Lemma single_flight_witness :
  Cache.run Isr.getStaticProps (repeat Cache.Request 3) scenario_slot
    (later 6 scenario_world)
  = (repeat (Cache.snapshot scenario_slot) 3,
     {| Cache.snapshot := Cache.snapshot scenario_slot;
        Cache.window := 10;
        Cache.producedAt := 0;
        Cache.inflight :=
          Some (fst (Isr.getStaticProps (later 7 scenario_world)));
        Cache.regenerations := 1 |},
     later 11 scenario_world).
Proof.
  apply (single_flight Isr.getStaticProps scenario_slot (later 6 scenario_world) 3).
  - reflexivity.
  - vm_compute. reflexivity.
  - lia.
Defined.

Lemma build_isr w :
  clock_in_range w ->
  Cache.build Isr.getStaticProps w =
    (Some {| Cache.snapshot :=
               JS.Object
                 [("renderTime", JS.Str (Date.format (reading w (reads w))));
                  ("hostname", hostname_in w);
                  ("nextRevalidation",
                   JS.Str (Date.format (reading w (S (reads w)) + 10000)))];
             Cache.window := 10;
             Cache.producedAt := reading w (S (S (reads w)));
             Cache.inflight := None;
             Cache.regenerations := 0 |},
     later 3 w).
Proof.
  intros H. unfold Cache.build. now rewrite (getStaticProps_in_range w H).
Qed.

(** C7.  With the window of 10 s the page declares: whatever happens
    within 10 s of the first generation, every request is answered with the
    snapshot of that generation and the slot stays as the build left it, with
    no regeneration started.  The first request that arrives after that is
    answered with the same, old snapshot and starts the one regeneration,
    which runs the generation function at that moment; the requests that
    arrive while it is in flight get the old snapshot too.  When it is done
    its snapshot replaces the old one, and the next request is answered with
    it: a snapshot whose render time is strictly later. *)
Theorem windowed_cache (w : World) (evs : list Cache.event) (m : nat) :
  monotone w -> clock_in_range w ->
  exists c0 w0 ta,
    Cache.build Isr.getStaticProps w = (Some c0, w0)
    /\ Cache.window c0 = 10
    /\ Cache.inflight c0 = None
    /\ Cache.regenerations c0 = 0%nat
    /\ renderTime_of (Cache.snapshot c0) = Some ta
    /\ let k := requests_in evs in
       ((forall i, (i < k)%nat ->
           reading w0 (reads w0 + i) < Cache.producedAt c0 + 10 * 1000) ->
        Cache.run Isr.getStaticProps evs c0 w0
          = (repeat (Cache.snapshot c0) k, c0, later k w0)
        /\ (Cache.producedAt c0 + 10 * 1000 <= reading w0 (reads w0 + k) ->
            exists out tb,
              fst (Isr.getStaticProps (later (S k) w0)) = Fulfilled out
              /\ renderTime_of (JS.get out "props") = Some tb
              /\ ts_lt ta tb
              /\ let c1 :=
                   {| Cache.snapshot := Cache.snapshot c0;
                      Cache.window := 10;
                      Cache.producedAt := Cache.producedAt c0;
                      Cache.inflight := Some (Fulfilled out);
                      Cache.regenerations := 1 |} in
                 let c2 :=
                   {| Cache.snapshot := JS.get out "props";
                      Cache.window := 10;
                      Cache.producedAt := reading w0 (reads w0 + (m + (3 + k)));
                      Cache.inflight := None;
                      Cache.regenerations := 1 |} in
                 Cache.run Isr.getStaticProps (evs ++ [Cache.Request]) c0 w0
                   = ((repeat (Cache.snapshot c0) k ++ [Cache.snapshot c0])%list,
                      c1, later (3 + k) w0)
                 /\ Cache.run Isr.getStaticProps
                      (repeat Cache.Request m ++ [Cache.RegenerationDone])
                      c1 (later (3 + k) w0)
                    = (repeat (Cache.snapshot c0) m, c2,
                       later (S (m + (3 + k))) w0)
                 /\ fst (fst (Cache.request Isr.getStaticProps c2
                                (later (S (m + (3 + k))) w0)))
                    = JS.get out "props")).
Proof.
  intros Hmono Hrange.
  pose proof (clock_in_range_time_values w Hrange) as Htv.
  eexists _, _, _. split; [apply (build_isr w Hrange)|].
  cbn [Cache.window Cache.inflight Cache.snapshot Cache.producedAt
       Cache.regenerations].
  split; [reflexivity|]. split; [reflexivity|]. split; [reflexivity|].
  split; [reflexivity|].
  set (k := requests_in evs). intros Hfresh.
  set (c0 := {| Cache.snapshot := _ |}) in *.
  assert (Hwithin : Cache.run Isr.getStaticProps evs c0 (later 3 w)
                    = (repeat (Cache.snapshot c0) k, c0, later k (later 3 w)))
    by (apply run_within_window; [reflexivity|exact Hfresh]).
  split; [exact Hwithin|].
  intros Hstale.
  set (w' := later k (later 3 w)) in *.
  assert (Hreads : reads w' = (reads w + 3 + k)%nat)
    by (subst w'; now rewrite !reads_later).
  assert (Hread : forall j, reading w' j = reading w j)
    by (intros j; subst w'; now rewrite !reading_later).
  assert (Hrange' : clock_in_range (tick w'))
    by (apply clock_in_range_tick; subst w'; now do 2 apply clock_in_range_later).
  assert (Hs : Cache.is_stale c0 (reading w' (reads w')) = true).
  { apply is_stale_true. cbn [Cache.producedAt Cache.window c0].
    rewrite Hread, Hreads. rewrite reading_later, reads_later in Hstale.
    exact Hstale. }
  change (later (S k) (later 3 w)) with (tick w').
  rewrite (getStaticProps_in_range (tick w') Hrange'). cbn [fst].
  eexists _, _. split; [reflexivity|]. split; [reflexivity|].
  split.
  { cbn [tick reads]. change (reading (tick w')) with (reading w').
    rewrite Hread, Hreads.
    apply ts_lt_format; [apply Htv..|].
    rewrite reading_later, reads_later in Hstale.
    cbn [Cache.producedAt c0] in Hstale.
    pose proof (reading_le w (reads w) (S (S (reads w))) Hmono ltac:(lia)).
    pose proof (reading_le w (reads w + 3 + k) (S (reads w + 3 + k)) Hmono
                  ltac:(lia)).
    lia. }
  cbn zeta.
  split; [|split].
  - rewrite run_app, Hwithin. cbn [Cache.run].
    rewrite (request_stale Isr.getStaticProps c0 w' eq_refl Hs).
    now rewrite (getStaticProps_in_range (tick w') Hrange').
  - rewrite run_app. erewrite run_inflight by reflexivity.
    cbn [Cache.run Cache.regeneration_done Cache.inflight Cache.snapshot now].
    rewrite app_nil_r, later_later.
    rewrite !reading_later, !reads_later. reflexivity.
  - apply request_response.
Qed.

(** The scenario's clock, with the end of a regeneration that never started
    among the requests within the window. *)
Lemma windowed_cache_witness :
  exists c0 w0 out ta tb,
    Cache.build Isr.getStaticProps scenario_world = (Some c0, w0)
    /\ Cache.run Isr.getStaticProps
         [Cache.Request; Cache.RegenerationDone; Cache.Request; Cache.Request]
         c0 w0
       = (repeat (Cache.snapshot c0) 3, c0, later 3 w0)
    /\ fst (Isr.getStaticProps (later 4 w0)) = Fulfilled out
    /\ renderTime_of (Cache.snapshot c0) = Some ta
    /\ renderTime_of (JS.get out "props") = Some tb
    /\ ts_lt ta tb
    /\ fst (fst (Cache.run Isr.getStaticProps
                   [Cache.Request; Cache.RegenerationDone; Cache.Request;
                    Cache.Request; Cache.Request]
                   c0 w0))
       = (repeat (Cache.snapshot c0) 3 ++ [Cache.snapshot c0])%list.
Proof.
  destruct (windowed_cache scenario_world
              [Cache.Request; Cache.RegenerationDone; Cache.Request;
               Cache.Request] 0
              scenario_world_monotone scenario_world_in_range)
    as (c0 & w0 & ta & Hbuild & _ & _ & _ & Hta & H).
  pose proof Hbuild as E.
  rewrite (build_isr _ scenario_world_in_range) in E.
  injection E as <- <-.
  cbn zeta in H.
  destruct H as [Hwithin H].
  { intros i Hi. cbn [requests_in] in Hi.
    destruct i as [|[|[|i]]]; [vm_compute; reflexivity..|lia]. }
  destruct H as (out & tb & Hout & Htb & Hlt & Hstale & _ & _).
  { vm_compute. discriminate. }
  eexists _, _, out, ta, tb.
  split; [exact Hbuild|]. split; [exact Hwithin|]. split; [exact Hout|].
  split; [exact Hta|]. split; [exact Htb|]. split; [exact Hlt|].
  change [Cache.Request; Cache.RegenerationDone; Cache.Request; Cache.Request;
          Cache.Request]
    with ([Cache.Request; Cache.RegenerationDone; Cache.Request; Cache.Request]
          ++ [Cache.Request])%list.
  now rewrite Hstale.
Defined.

(** The end-to-end scenario of the spec: the build at 0 s produces A; the
    requests at 2 s, 5 s and 9 s are answered with A; so is the request at
    11 s, which starts the regeneration that is done at 11.05 s; the request
    at 12 s is answered with B. *)
Lemma end_to_end_scenario :
  match Cache.build Isr.getStaticProps scenario_world with
  | (Some c0, w0) =>
      map renderTime_of
        (fst (fst (Cache.run Isr.getStaticProps
                     [Cache.Request; Cache.Request; Cache.Request;
                      Cache.Request; Cache.RegenerationDone; Cache.Request]
                     c0 w0)))
  | (None, _) => []
  end
  = [Some "1970-01-01T00:00:00.000Z"; Some "1970-01-01T00:00:00.000Z";
     Some "1970-01-01T00:00:00.000Z"; Some "1970-01-01T00:00:00.000Z";
     Some "1970-01-01T00:00:11.010Z"].
Proof. vm_compute. reflexivity. Qed.

(** A regeneration that fails leaves the old snapshot in place, and the next
    stale request starts another. *)
Lemma failed_regeneration_keeps_snapshot generate c w e :
  Cache.inflight c = Some (Rejected e) ->
  exists c',
    Cache.regeneration_done c w = (c', w)
    /\ Cache.snapshot c' = Cache.snapshot c
    /\ Cache.producedAt c' = Cache.producedAt c
    /\ Cache.inflight c' = None
    /\ fst (fst (Cache.request generate c' w)) = Cache.snapshot c.
Proof.
  intros Hi. unfold Cache.regeneration_done. rewrite Hi.
  eexists. repeat split. now rewrite request_response.
Qed.

(** * Further properties of the generation functions *)

Lemma format_injective a b :
  Date.is_time_value a -> Date.is_time_value b ->
  Date.format a = Date.format b -> a = b.
Proof.
  intros Ha Hb E. pose proof (parse_format a Ha) as Pa.
  rewrite E, (parse_format b Hb) in Pa. congruence.
Qed.

(** X1.  The time pages/isr.js shows as the next revalidation is never less
    than the declared window after the render time it shows: the function
    reads the clock a second time for it and adds ten seconds, the
    [revalidate] value in milliseconds.  It is exactly the window later when
    the two readings show the same millisecond. *)
Theorem next_revalidation_after_window (w : World) :
  monotone w -> clock_in_range w ->
  exists out secs render next r nx,
    fst (Isr.getStaticProps w) = Fulfilled out
    /\ JS.get out "revalidate" = JS.Number secs
    /\ JS.get (JS.get out "props") "renderTime" = JS.Str render
    /\ JS.get (JS.get out "props") "nextRevalidation" = JS.Str next
    /\ Date.parse render = Some r
    /\ Date.parse next = Some nx
    /\ r + secs * 1000 <= nx
    /\ (reading w (S (reads w)) = reading w (reads w) -> nx = r + secs * 1000).
Proof.
  intros Hmono Hrange.
  pose proof (clock_in_range_time_values w Hrange) as Htv.
  rewrite (getStaticProps_in_range w Hrange).
  assert (Hnext : Date.is_time_value (reading w (S (reads w)) + 10000)).
  { destruct (Hrange (S (reads w))). unfold Date.is_time_value, Date.maxTime in *. lia. }
  eexists _, 10, _, _, (reading w (reads w)), (reading w (S (reads w)) + 10000).
  cbn [fst].
  split; [reflexivity|]. split; [reflexivity|]. split; [reflexivity|].
  split; [reflexivity|].
  split; [apply parse_format, Htv|]. split; [now apply parse_format|].
  pose proof (reading_le w (reads w) (S (reads w)) Hmono ltac:(lia)).
  split; [lia|]. intros E. rewrite E. lia.
Qed.

Lemma next_revalidation_after_window_witness :
  exists out secs render next r nx,
    fst (Isr.getStaticProps scenario_world) = Fulfilled out
    /\ JS.get out "revalidate" = JS.Number secs
    /\ JS.get (JS.get out "props") "renderTime" = JS.Str render
    /\ JS.get (JS.get out "props") "nextRevalidation" = JS.Str next
    /\ Date.parse render = Some r
    /\ Date.parse next = Some nx
    /\ r + secs * 1000 <= nx
    /\ (reading scenario_world (S (reads scenario_world))
          = reading scenario_world (reads scenario_world) ->
        nx = r + secs * 1000).
Proof.
  apply (next_revalidation_after_window scenario_world).
  - exact scenario_world_monotone.
  - exact scenario_world_in_range.
Defined.

(** X2.  getStaticProps is rejected, with a RangeError, exactly when ten
    seconds after its second clock reading is no time value a Date can hold;
    it has then read the clock twice all the same.  getServerSideProps,
    which prints only the current time, is never rejected. *)
Theorem getStaticProps_rejected_iff (w : World) :
  (fst (Isr.getStaticProps w) = Rejected JS.RangeError
   <-> Date.maxTime < Z.abs (reading w (S (reads w)) + 10000))
  /\ snd (Isr.getStaticProps w) = later 2 w
  /\ (forall e, fst (Ssr.getServerSideProps w) <> Rejected e).
Proof.
  rewrite getStaticProps_run, getServerSideProps_run. cbn [fst snd].
  split; [|split; [reflexivity|discriminate]].
  unfold Date.TimeClip.
  destruct (Z.leb_spec (Z.abs (reading w (S (reads w)) + 10000)) Date.maxTime);
    split; intros; try discriminate; try reflexivity; lia.
Qed.

Lemma is_digit_digit d : 0 <= d <= 9 -> is_digit (Date.digit d) = true.
Proof. intros H. unfold is_digit. now rewrite digit_val_digit. Qed.

Lemma matches_pad w : forall n pat rest,
  0 <= n < 10 ^ Z.of_nat w ->
  matches (repeat Digit w ++ pat) (Date.pad w n rest) = matches pat rest.
Proof.
  induction w as [|w IH]; intros n pat rest Hn; [reflexivity|].
  cbn [repeat app Date.pad matches accepts].
  rewrite is_digit_digit by (now apply leading_digit).
  rewrite IH; [reflexivity|].
  apply Z.mod_pos_bound, pow10_pos.
Qed.

Lemma matches_length pat : forall s,
  matches pat s = true -> String.length s = length pat.
Proof.
  induction pat as [|k pat IH]; intros [|c s] H; cbn in *;
    try discriminate; [reflexivity|].
  apply andb_true_iff in H as [_ H]. now rewrite (IH s H).
Qed.

Lemma matches_pad2 n pat rest :
  0 <= n <= 99 ->
  matches (Digit :: Digit :: pat) (Date.pad 2 n rest) = matches pat rest.
Proof.
  intros H. apply (matches_pad 2 n pat rest).
  change (10 ^ Z.of_nat 2) with 100. lia.
Qed.

Lemma matches_pad3 n pat rest :
  0 <= n <= 999 ->
  matches (Digit :: Digit :: Digit :: pat) (Date.pad 3 n rest) = matches pat rest.
Proof.
  intros H. apply (matches_pad 3 n pat rest).
  change (10 ^ Z.of_nat 3) with 1000. lia.
Qed.

Lemma matches_lit c pat s :
  matches (Lit c :: pat) (String c s) = matches pat s.
Proof. cbn [matches accepts]. now rewrite Ascii.eqb_refl. Qed.

Lemma matches_iso_tail tv :
  matches iso_tail
    (String "-" (Date.pad 2 (Date.MonthFromTime tv + 1)
    (String "-" (Date.pad 2 (Date.DateFromTime tv)
    (String "T" (Date.pad 2 (Date.HourFromTime tv)
    (String ":" (Date.pad 2 (Date.MinFromTime tv)
    (String ":" (Date.pad 2 (Date.SecFromTime tv)
    (String "." (Date.pad 3 (Date.msFromTime tv)
    (String "Z" EmptyString))))))))))))) = true.
Proof.
  pose proof (MonthFromTime_range tv). pose proof (DateFromTime_range tv).
  destruct (time_fields_range tv) as (? & ? & ? & ?).
  unfold iso_tail.
  rewrite matches_lit, matches_pad2 by lia.
  rewrite matches_lit, matches_pad2 by lia.
  rewrite matches_lit, matches_pad2 by lia.
  rewrite matches_lit, matches_pad2 by lia.
  rewrite matches_lit, matches_pad2 by lia.
  rewrite matches_lit, matches_pad3 by lia.
  now rewrite matches_lit.
Qed.

(** Every time value is printed in the form of its year. *)
Lemma format_shape tv :
  Date.is_time_value tv -> matches (shape_of tv) (Date.format tv) = true.
Proof.
  intros Htv. pose proof (YearFromTime_range tv Htv) as Hy.
  unfold shape_of, Date.format, Date.padYear.
  destruct ((0 <=? Date.YearFromTime tv) && (Date.YearFromTime tv <=? 9999)) eqn:E.
  - apply andb_true_iff in E as [E1 E2]. apply Z.leb_le in E1, E2.
    change iso_pattern with (repeat Digit 4 ++ iso_tail)%list.
    rewrite matches_pad by (change (10 ^ Z.of_nat 4) with 10000; lia).
    apply matches_iso_tail.
  - change iso_pattern_expanded with (Sign :: repeat Digit 6 ++ iso_tail)%list.
    destruct (Z.ltb_spec (Date.YearFromTime tv) 0).
    + cbn [matches]. change (accepts Sign "-") with true. cbn [andb].
      rewrite matches_pad by (change (10 ^ Z.of_nat 6) with 1000000; lia).
      apply matches_iso_tail.
    + cbn [matches]. change (accepts Sign "+") with true. cbn [andb].
      rewrite matches_pad by (change (10 ^ Z.of_nat 6) with 1000000; lia).
      apply matches_iso_tail.
Qed.

(** X3.  Every timestamp the two generation functions return has the ISO
    form of its year: YYYY-MM-DDTHH:mm:ss.sssZ, 24 characters, for the years
    0000 to 9999, and the 27 characters of the signed six-digit form
    otherwise. *)
Theorem timestamps_iso_shape (w : World) :
  clock_in_range w ->
  let well_formed (tv : Z) (ts : string) :=
    matches (shape_of tv) ts = true
    /\ String.length ts
       = (if (0 <=? Date.YearFromTime tv) && (Date.YearFromTime tv <=? 9999)
          then 24%nat else 27%nat) in
  (exists out ts,
      fst (Ssr.getServerSideProps w) = Fulfilled out
      /\ JS.get (JS.get out "props") "serverTime" = JS.Str ts
      /\ well_formed (reading w (reads w)) ts)
  /\ (exists out render next,
        fst (Isr.getStaticProps w) = Fulfilled out
        /\ JS.get (JS.get out "props") "renderTime" = JS.Str render
        /\ JS.get (JS.get out "props") "nextRevalidation" = JS.Str next
        /\ well_formed (reading w (reads w)) render
        /\ well_formed (reading w (S (reads w)) + 10000) next).
Proof.
  intros Hrange well_formed.
  pose proof (clock_in_range_time_values w Hrange) as Htv.
  assert (Hwf : forall tv, Date.is_time_value tv -> well_formed tv (Date.format tv)).
  { intros tv Hv. pose proof (format_shape tv Hv) as Hm.
    split; [exact Hm|]. rewrite (matches_length _ _ Hm). unfold shape_of.
    now destruct ((0 <=? Date.YearFromTime tv) && (Date.YearFromTime tv <=? 9999)). }
  split.
  - rewrite getServerSideProps_run. eexists _, _. cbn [fst].
    split; [reflexivity|]. split; [reflexivity|]. apply Hwf, Htv.
  - rewrite (getStaticProps_in_range w Hrange). eexists _, _, _. cbn [fst].
    split; [reflexivity|]. split; [reflexivity|]. split; [reflexivity|].
    split; [apply Hwf, Htv|]. apply Hwf.
    destruct (Hrange (S (reads w))).
    unfold Date.is_time_value, Date.maxTime in *. lia.
Qed.

Lemma timestamps_iso_shape_witness :
  exists out ts,
    fst (Ssr.getServerSideProps probe_world) = Fulfilled out
    /\ JS.get (JS.get out "props") "serverTime" = JS.Str ts
    /\ matches iso_pattern ts = true
    /\ String.length ts = 24%nat.
Proof.
  destruct (timestamps_iso_shape probe_world probe_world_in_range)
    as [(out & ts & Hout & Hts & Hm & Hlen) _].
  exists out, ts. repeat split; assumption.
Defined.

(** X4.  Two of the requests to the server-rendered page show the same
    timestamp exactly when the clock showed them the same millisecond: the
    timestamp tells requests apart down to the millisecond and no further. *)
Theorem same_timestamp_iff_same_millisecond (w : World) (n i j : nat) :
  time_values w -> (i < n)%nat -> (j < n)%nat ->
  (served_timestamps n w !! i = served_timestamps n w !! j
   <-> reading w (reads w + i) = reading w (reads w + j)).
Proof.
  intros Htv Hi Hj. rewrite !served_timestamps_lookup by assumption.
  split.
  - intros [= E]. apply format_injective; [apply Htv..|exact E].
  - intros E. now rewrite E.
Qed.

Lemma same_timestamp_iff_same_millisecond_witness :
  served_timestamps 4 probe_world !! 1%nat = served_timestamps 4 probe_world !! 2%nat
  <-> reading probe_world (reads probe_world + 1)
      = reading probe_world (reads probe_world + 2).
Proof.
  apply (same_timestamp_iff_same_millisecond probe_world 4 1 2).
  - exact (clock_in_range_time_values _ probe_world_in_range).
  - lia.
  - lia.
Defined.

(** * The pages, rendered from what the generation functions return *)

(** The server-rendered page shows its two props, each once, after fixed
    text. *)
Lemma SSRPage_values props :
  React.values (Pages.SSRPage props)
  = (take 4 (React.values (Pages.SSRPage []))
     ++ [React.prop props "serverTime"]
     ++ take 2 (drop 5 (React.values (Pages.SSRPage [])))
     ++ [React.prop props "hostname"]
     ++ drop 8 (React.values (Pages.SSRPage [])))%list.
Proof. reflexivity. Qed.

Lemma ISRPage_values props :
  React.values (Pages.ISRPage props)
  = (take 4 (React.values (Pages.ISRPage []))
     ++ [React.prop props "renderTime"]
     ++ take 2 (drop 5 (React.values (Pages.ISRPage [])))
     ++ [React.prop props "hostname"]
     ++ take 2 (drop 8 (React.values (Pages.ISRPage [])))
     ++ [React.prop props "nextRevalidation"]
     ++ drop 11 (React.values (Pages.ISRPage [])))%list.
Proof. reflexivity. Qed.

Lemma hostname_in_text w : is_text (hostname_in w).
Proof.
  destruct (hostname_in_cases w) as [[_ E]|[[_ E]|(s & _ & _ & E)]];
    rewrite E; now eexists.
Qed.

Lemma Forall_is_text_literals (l : list JS.value) :
  forallb (fun v => match v with JS.Str _ => true | _ => false end) l = true ->
  Forall is_text l.
Proof.
  intros H. apply Forall_forall. intros v Hv.
  rewrite forallb_forall in H. apply list_elem_of_In in Hv.
  specialize (H v Hv). destruct v; try discriminate. now eexists.
Qed.

(** X5.  The server-rendered page, built from what getServerSideProps
    returns for a request, shows the timestamp of that request right after
    the label of the render time and the host name right after the label of
    the host name, each once; everything else on the page is the same text
    for every request, and every child is a string.  Without HOSTNAME the
    page shows the fallback sentence as the host. *)
Theorem SSRPage_shows_generation :
  exists before between after : list JS.value,
    last before = Some (JS.Str "Server Render Time:")
    /\ last between = Some (JS.Str "Server Hostname (Pod/Container ID):")
    /\ forall w : World,
        exists out,
          fst (Ssr.getServerSideProps w) = Fulfilled out
          /\ React.values (Pages.SSRPage (page_props out))
             = (before ++ [JS.Str (Date.format (reading w (reads w)))]
                ++ between ++ [hostname_in w] ++ after)%list
          /\ Forall is_text (React.values (Pages.SSRPage (page_props out)))
          /\ (env w !! "HOSTNAME" = None -> hostname_in w = JS.Str fallback).
Proof.
  exists (take 4 (React.values (Pages.SSRPage []))),
         (take 2 (drop 5 (React.values (Pages.SSRPage [])))),
         (drop 8 (React.values (Pages.SSRPage []))).
  split; [reflexivity|]. split; [reflexivity|].
  intros w. rewrite getServerSideProps_run. eexists. split; [reflexivity|].
  cbn [fst]. rewrite SSRPage_values.
  assert (E : page_props (JS.Object
                 [("props", JS.Object
                    [("serverTime", JS.Str (Date.format (reading w (reads w))));
                     ("hostname", hostname_in w)])])
              = [("serverTime", JS.Str (Date.format (reading w (reads w))));
                 ("hostname", hostname_in w)]) by reflexivity.
  rewrite E.
  change (React.prop _ "serverTime")
    with (JS.Str (Date.format (reading w (reads w)))).
  change (React.prop _ "hostname") with (hostname_in w).
  split; [reflexivity|]. split.
  - repeat (apply Forall_app; split);
      first [ apply Forall_is_text_literals; reflexivity
            | apply Forall_singleton, hostname_in_text ].
  - intros H. unfold hostname_in. now rewrite H.
Qed.

Lemma SSRPage_shows_generation_witness :
  exists out,
    fst (Ssr.getServerSideProps bare_world) = Fulfilled out
    /\ In (JS.Str fallback) (React.values (Pages.SSRPage (page_props out))).
Proof.
  destruct SSRPage_shows_generation as (b & m & a & _ & _ & H).
  destruct (H bare_world) as (out & Hout & Hvals & _ & Hfb).
  exists out. split; [exact Hout|].
  rewrite Hvals, (Hfb eq_refl).
  rewrite !in_app_iff. right. right. right. left. now left.
Defined.

(** X6.  The regenerated page, built from what getStaticProps returns,
    shows the render time, the host name and the next revalidation time,
    each once and each right after its label; everything else on the page is
    fixed text, and every child is a string. *)
Theorem ISRPage_shows_generation :
  exists before between1 between2 after : list JS.value,
    last before = Some (JS.Str "Page Generation Time:")
    /\ last between1
       = Some (JS.Str "Server Hostname (Pod/Container that built this version):")
    /\ last between2 = Some (JS.Str "Next Revalidation Eligible After:")
    /\ forall w : World,
        clock_in_range w ->
        exists out,
          fst (Isr.getStaticProps w) = Fulfilled out
          /\ React.values (Pages.ISRPage (page_props out))
             = (before ++ [JS.Str (Date.format (reading w (reads w)))]
                ++ between1 ++ [hostname_in w]
                ++ between2
                ++ [JS.Str (Date.format (reading w (S (reads w)) + 10000))]
                ++ after)%list
          /\ Forall is_text (React.values (Pages.ISRPage (page_props out))).
Proof.
  exists (take 4 (React.values (Pages.ISRPage []))),
         (take 2 (drop 5 (React.values (Pages.ISRPage [])))),
         (take 2 (drop 8 (React.values (Pages.ISRPage [])))),
         (drop 11 (React.values (Pages.ISRPage []))).
  split; [reflexivity|]. split; [reflexivity|]. split; [reflexivity|].
  intros w Hrange. rewrite (getStaticProps_in_range w Hrange).
  eexists. split; [reflexivity|].
  cbn [fst]. rewrite ISRPage_values.
  assert (E : forall a b c r,
            page_props (JS.Object
              [("props", JS.Object
                 [("renderTime", a); ("hostname", b); ("nextRevalidation", c)]);
               ("revalidate", r)])
            = [("renderTime", a); ("hostname", b); ("nextRevalidation", c)])
    by reflexivity.
  rewrite E.
  change (React.prop _ "renderTime")
    with (JS.Str (Date.format (reading w (reads w)))).
  change (React.prop _ "hostname") with (hostname_in w).
  change (React.prop _ "nextRevalidation")
    with (JS.Str (Date.format (reading w (S (reads w)) + 10000))).
  split; [reflexivity|].
  repeat (apply Forall_app; split);
    first [ apply Forall_is_text_literals; reflexivity
          | apply Forall_singleton, hostname_in_text ].
Qed.

Lemma ISRPage_shows_generation_witness :
  exists out,
    fst (Isr.getStaticProps probe_world) = Fulfilled out
    /\ Forall is_text (React.values (Pages.ISRPage (page_props out))).
Proof.
  destruct ISRPage_shows_generation as (b & m1 & m2 & a & _ & _ & _ & H).
  destruct (H probe_world probe_world_in_range) as (out & Hout & _ & Htext).
  exists out. split; assumption.
Defined.

(** X7.  Whatever its props, each page links to the two other pages and not
    to itself: the landing page to /ssr and /isr, the server-rendered page
    to / and /isr, the regenerated page to / and /ssr. *)
Theorem page_links (props : list (string * JS.value)) :
  React.links Pages.Home = [JS.Str "/ssr"; JS.Str "/isr"]
  /\ React.links (Pages.SSRPage props) = [JS.Str "/"; JS.Str "/isr"]
  /\ React.links (Pages.ISRPage props) = [JS.Str "/"; JS.Str "/ssr"].
Proof. repeat split. Qed.
